(** * Codebase ingestion and context packing of [enhanced_server.py]

    A shallow embedding of [CodebaseIngestion] (token counting, language
    detection, relevance scoring, the scan with its token budget),
    [ContextManager.create_codebase_context] and the [load_codebase] branch
    of [handle_tool_call], followed by the properties of the specification.

    Modelling conventions.
    - A Python [str] is a [string]: a sequence of characters with codes
      0..255; [len] is [String.length]. The few characters of the source's
      literals beyond that range stand as their UTF-8 bytes.
    - A Python [int] is a [Z].
    - A Python [float] is a [PrimFloat.float], the kernel's IEEE 754 binary64,
      so [score *= 1.3] is [mul score 1.3] bit for bit.
    - An exception raised inside a [try] is [None]. *)

From Stdlib Require Import ZArith List Bool Lia String Ascii.
From Stdlib Require Import PrimFloat FloatOps SpecFloat.
From Stdlib Require Import Permutation Sorted.
Import ListNotations.

Set Warnings "-inexact-float,-register-all".

Local Open Scope string_scope.
Local Open Scope Z_scope.

(** ** Python string operations *)

Module PyStr.

(** [pat in s] *)
Fixpoint contains (pat s : string) : bool :=
  String.prefix pat s ||
  match s with
  | EmptyString => false
  | String _ s' => contains pat s'
  end.

(** [s.startswith(pat)] *)
Definition startswith (s pat : string) : bool := String.prefix pat s.

(** [s[::-1]], used to read a string from its end. *)
Fixpoint rev (s : string) : string :=
  match s with
  | EmptyString => EmptyString
  | String c s' => rev s' ++ String c EmptyString
  end.

(** [s.endswith(pat)] *)
Definition endswith (s pat : string) : bool :=
  String.prefix (rev pat) (rev s).

Definition lower_char (c : ascii) : ascii :=
  let n := nat_of_ascii c in
  if (65 <=? n)%nat && (n <=? 90)%nat then ascii_of_nat (n + 32) else c.

(** [s.lower()] on the letters A..Z. *)
Fixpoint lower (s : string) : string :=
  match s with
  | EmptyString => EmptyString
  | String c s' => String (lower_char c) (lower s')
  end.

(** [c.isspace()] for a character of code 0..255. *)
Definition isspace (c : ascii) : bool :=
  let n := nat_of_ascii c in
  ((9 <=? n)%nat && (n <=? 13)%nat) ||
  ((28 <=? n)%nat && (n <=? 32)%nat) ||
  (n =? 133)%nat || (n =? 160)%nat.

(** [s.lstrip()] *)
Fixpoint lstrip (s : string) : string :=
  match s with
  | EmptyString => EmptyString
  | String c s' => if isspace c then lstrip s' else s
  end.

(** [s.strip()] *)
Definition strip (s : string) : string := rev (lstrip (rev (lstrip s))).

(** Truth value of a string: [bool(s)]. *)
Definition truthy (s : string) : bool :=
  match s with
  | EmptyString => false
  | String _ _ => true
  end.

(** [len(s)] *)
Definition len (s : string) : Z := Z.of_nat (String.length s).

(** [x in xs] for a collection of strings. *)
Definition mem (x : string) (xs : list string) : bool :=
  existsb (String.eqb x) xs.

(** [sep.join(xs)] *)
Fixpoint join (sep : string) (xs : list string) : string :=
  match xs with
  | [] => ""
  | [x] => x
  | x :: rest => x ++ sep ++ join sep rest
  end.

End PyStr.

(** ** The part of [pathlib] the scan uses, on POSIX path strings *)

Module PyPath.

(** Text after the last ['/'] of [s], accumulated in [acc]. *)
Fixpoint name_from (acc s : string) : string :=
  match s with
  | EmptyString => acc
  | String c s' =>
      if Ascii.eqb c "/"%char then name_from EmptyString s'
      else name_from (acc ++ String c EmptyString) s'
  end.

(** [Path(p).name]: the final component. *)
Definition name (p : string) : string := name_from EmptyString p.

(** Position of the last ['.'] of [s], scanning from position [i]. *)
Fixpoint rfind_dot (i : nat) (s : string) : option nat :=
  match s with
  | EmptyString => None
  | String c s' =>
      match rfind_dot (S i) s' with
      | Some j => Some j
      | None => if Ascii.eqb c "."%char then Some i else None
      end
  end.

(** [Path(p).suffix]: with [i = name.rfind('.')], the text [name[i:]] when
    [0 < i < len(name) - 1], and the empty string otherwise. *)
Definition suffix (p : string) : string :=
  let nm := name p in
  match rfind_dot 0 nm with
  | Some i =>
      if (0 <? i)%nat && (i <? String.length nm - 1)%nat
      then String.substring i (String.length nm - i) nm
      else ""
  | None => ""
  end.

(** [str(root / rel)] for a resolved [root], which ends with no ['/']
    unless it is the root directory itself. *)
Definition joinpath (root rel : string) : string :=
  if String.eqb root "/" then "/" ++ rel else root ++ "/" ++ rel.

End PyPath.

(** ** Directory trees and the walk of [rglob]

    A regular file carries what [open(...).read()] returns ([None] when the
    read raises) and its modification time ([None] when [stat] raises). *)

Inductive Node : Type :=
| File (name : string) (data : option string) (mtime : option Z)
| Dir (name : string) (children : list Node).

Definition node_name (n : Node) : string :=
  match n with
  | File nm _ _ => nm
  | Dir nm _ => nm
  end.

(** One path yielded by [project_path.rglob('*')]. *)
Record Entry : Type := mkEntry {
  e_rel : string;            (* str(file_path.relative_to(project_path)) *)
  e_is_dir : bool;           (* file_path.is_dir() *)
  e_data : option string;    (* the text read from it *)
  e_mtime : option Z         (* file_path.stat().st_mtime *)
}.

Definition entry_of (dir_rel : string) (n : Node) : Entry :=
  match n with
  | File nm data mtime => mkEntry (dir_rel ++ nm) false data mtime
  | Dir nm _ => mkEntry (dir_rel ++ nm) true None None
  end.

(** Everything below a directory, hidden directories included: the entries
    of the directory itself, then the walk of each of its subdirectories.
    [dir_rel] is the directory's relative path with its trailing ['/'], empty
    for the scan root. *)
Fixpoint walk_dir (dir_rel : string) (n : Node) : list Entry :=
  match n with
  | File _ _ _ => []
  | Dir _ children =>
      map (entry_of dir_rel) children ++
      flat_map (fun c => walk_dir (dir_rel ++ node_name c ++ "/") c) children
  end.

Definition rglob (root : Node) : list Entry := walk_dir "" root.

(** ** [FileInfo]: the record built for each ingested file *)

Record FileInfo : Type := mkFileInfo {
  path : string;
  relative_path : string;
  content : string;
  tokens : Z;
  size : Z;
  modified : Z;
  language : string;
  relevance_score : float
}.

Definition set_relevance_score (fi : FileInfo) (s : float) : FileInfo :=
  mkFileInfo (path fi) (relative_path fi) (content fi) (tokens fi) (size fi)
             (modified fi) (language fi) s.

(** [d.get(k, default)] on a dict written as its list of items. *)
Fixpoint dict_get {V : Type} (d : list (string * V)) (k : string) (default : V) : V :=
  match d with
  | [] => default
  | (k', v) :: rest => if String.eqb k k' then v else dict_get rest k default
  end.

(** ** [CodebaseIngestion] *)

Definition CODE_EXTENSIONS : list string :=
  [ ".py"; ".js"; ".ts"; ".jsx"; ".tsx"; ".java"; ".cpp"; ".c"; ".h";
    ".cs"; ".php"; ".rb"; ".go"; ".rs"; ".swift"; ".kt"; ".scala";
    ".html"; ".css"; ".scss"; ".vue"; ".svelte"; ".md"; ".yml"; ".yaml";
    ".json"; ".xml"; ".sql"; ".sh"; ".dockerfile"; ".tf"; ".tf" ].

Definition SKIP_PATTERNS : list string :=
  [ "node_modules"; ".git"; "__pycache__"; ".venv"; "venv"; "dist";
    "build"; ".next"; ".nuxt"; "target"; "bin"; "obj"; ".idea";
    ".vscode"; "coverage"; ".pytest_cache"; ".mypy_cache";
    "*.lock"; "package-lock.json"; "yarn.lock"; "*.log" ].

Definition language_map : list (string * string) :=
  [ (".py", "python"); (".js", "javascript"); (".ts", "typescript");
    (".jsx", "react"); (".tsx", "react-ts"); (".java", "java");
    (".cpp", "cpp"); (".c", "c"); (".h", "c-header");
    (".cs", "csharp"); (".php", "php"); (".rb", "ruby");
    (".go", "go"); (".rs", "rust"); (".swift", "swift");
    (".kt", "kotlin"); (".scala", "scala"); (".html", "html");
    (".css", "css"); (".scss", "scss"); (".vue", "vue");
    (".svelte", "svelte"); (".md", "markdown"); (".yml", "yaml");
    (".yaml", "yaml"); (".json", "json"); (".xml", "xml");
    (".sql", "sql"); (".sh", "bash"); (".dockerfile", "docker");
    (".tf", "terraform") ].

(** [CodebaseIngestion.get_language] *)
Definition get_language (file_path : string) : string :=
  let ext := PyStr.lower (PyPath.suffix file_path) in
  dict_get language_map ext "unknown".

Definition language_weights : list (string * float) :=
  [ ("python", 1.2); ("javascript", 1.2); ("typescript", 1.3);
    ("java", 1.2); ("cpp", 1.1); ("go", 1.2); ("rust", 1.2);
    ("css", 0.8); ("html", 0.7); ("json", 0.6); ("yaml", 0.5) ]%float.

(** [any(d in path for d in dirs)] *)
Definition any_in (dirs : list string) (path : string) : bool :=
  existsb (fun d => PyStr.contains d path) dirs.

(** [any(pattern in str(relative_path) for pattern in cls.SKIP_PATTERNS)] *)
Definition any_in_patterns (rel : string) : bool := any_in SKIP_PATTERNS rel.

(** The four stages of [calculate_relevance_score], each the statement
    block of the source that updates [score]. *)

Definition language_stage (lang : string) (score : float) : float :=
  (score * dict_get language_weights lang 1.0)%float.

Definition directory_stage (path : string) (score : float) : float :=
  if any_in ["src/"; "lib/"; "core/"; "app/"] path then (score * 1.3)%float
  else if any_in ["test/"; "tests/"; "docs/"; "doc/"] path then (score * 0.7)%float
  else if any_in ["config/"; "configs/"; "settings/"] path then (score * 0.6)%float
  else score.

Definition size_stage (toks : Z) (score : float) : float :=
  if toks <? 100 then (score * 1.1)%float
  else if toks >? 5000 then (score * 0.8)%float
  else if toks >? 10000 then (score * 0.6)%float
  else score.

Definition filename_stage (path : string) (score : float) : float :=
  let filename := PyStr.lower (PyPath.name path) in
  if PyStr.mem filename ["main.py"; "index.js"; "app.py"; "server.py"; "main.go"]
  then (score * 1.5)%float
  else if PyStr.startswith filename "test_" || PyStr.endswith filename "_test.py"
  then (score * 0.7)%float
  else score.

(** [CodebaseIngestion.calculate_relevance_score]; it reads the keys
    [relative_path], [language] and [tokens] of [file_info]. *)
Definition calculate_relevance_score (file_info : FileInfo) (project_root : string) : float :=
  let score := 1.0%float in
  let path := relative_path file_info in
  let score := language_stage (language file_info) score in
  let score := directory_stage path score in
  let score := size_stage (tokens file_info) score in
  let score := filename_stage path score in
  score.

(** [files_info.sort(key=lambda x: x['relevance_score'], reverse=True)]:
    the stable sort by descending score, which keeps records of equal score
    in their order. The keys are compared with [<] on floats; the result of
    a stable sort does not depend on its algorithm, and it is computed here
    by insertion. [insert_by_score fi l] puts [fi] in front of the first
    record whose score is not greater than its own. *)
Fixpoint insert_by_score (fi : FileInfo) (l : list FileInfo) : list FileInfo :=
  match l with
  | [] => [fi]
  | x :: rest =>
      if (relevance_score fi <? relevance_score x)%float
      then x :: insert_by_score fi rest
      else fi :: l
  end.

Fixpoint sort_by_relevance (l : list FileInfo) : list FileInfo :=
  match l with
  | [] => []
  | fi :: rest => insert_by_score fi (sort_by_relevance rest)
  end.

(** The loop that trims the sorted list to the token limit, from the state
    [(selected_files, used_tokens)]; the [else] branch is the [break]. *)
Fixpoint trim_loop (files_info : list FileInfo) (max_tokens : Z)
         (selected_files : list FileInfo) (used_tokens : Z) : list FileInfo * Z :=
  match files_info with
  | [] => (selected_files, used_tokens)
  | file_info :: rest =>
      if used_tokens + tokens file_info <=? max_tokens
      then trim_loop rest max_tokens (selected_files ++ [file_info])
                     (used_tokens + tokens file_info)
      else (selected_files, used_tokens)
  end.

(** The dict [scan_codebase] returns. *)
Record ScanResult : Type := mkScanResult {
  files : list FileInfo;
  total_tokens : Z;
  total_files : Z;
  scanned_files : Z;
  project_path : string
}.

Section Ingestion.

(** The module-level tokenizer state: whether [import tiktoken] succeeded,
    and [encoding.encode] ([None] when it raises). *)
Variable TIKTOKEN_AVAILABLE : bool.
Variable encode : string -> option (list Z).

(** [CodebaseIngestion.count_tokens]; [None] when [encode] raises. *)
Definition count_tokens (text : string) : option Z :=
  if TIKTOKEN_AVAILABLE then
    match encode text with
    | Some toks => Some (Z.of_nat (List.length toks))
    | None => None
    end
  else
    Some (PyStr.len text / 4).

(** The body of the [for file_path in project_path.rglob('*')] loop:
    [Some] the record appended to [files_info], [None] when the entry is
    skipped by a [continue] (also the one of the [except] clause). *)
Definition scan_entry (root : string) (e : Entry) : option FileInfo :=
  if e_is_dir e || PyStr.startswith (PyPath.name (e_rel e)) "." then None
  else if any_in_patterns (e_rel e) then None
  else if negb (PyStr.mem (PyStr.lower (PyPath.suffix (e_rel e))) CODE_EXTENSIONS) then None
  else
    match e_data e with
    | None => None
    | Some text =>
        if negb (PyStr.truthy (PyStr.strip text)) then None
        else
          match count_tokens text with
          | None => None
          | Some file_tokens =>
              if file_tokens >? 50000 then None
              else
                match e_mtime e with
                | None => None
                | Some mtime =>
                    let file_path := PyPath.joinpath root (e_rel e) in
                    let file_info :=
                      mkFileInfo file_path (e_rel e) text file_tokens
                                 (PyStr.len text) mtime
                                 (get_language file_path) 0%float in
                    Some (set_relevance_score file_info
                            (calculate_relevance_score file_info root))
                end
          end
    end.

(** [files_info] when the walk is over, in encounter order. *)
Fixpoint scan_entries (root : string) (walk : list Entry) : list FileInfo :=
  match walk with
  | [] => []
  | e :: rest =>
      match scan_entry root e with
      | Some fi => fi :: scan_entries root rest
      | None => scan_entries root rest
      end
  end.

(** [CodebaseIngestion.scan_codebase], on the resolved [project_path] and
    the directory tree found there. *)
Definition scan_codebase (root : string) (tree : Node) (max_tokens : Z) : ScanResult :=
  let files_info := scan_entries root (rglob tree) in
  let files_info := sort_by_relevance files_info in
  let '(selected_files, used_tokens) := trim_loop files_info max_tokens [] 0 in
  mkScanResult selected_files used_tokens
               (Z.of_nat (List.length selected_files))
               (Z.of_nat (List.length files_info))
               root.

End Ingestion.

(** ** Formatting of numbers in f-strings *)

Module PyFormat.

Definition digit (d : Z) : string :=
  String (ascii_of_nat (48 + Z.to_nat d)) EmptyString.

(** The decimal digits of [n >= 0], most significant first; [fuel] bounds
    the number of digits. *)
Fixpoint digits_fuel (fuel : nat) (n : Z) : string :=
  match fuel with
  | O => ""
  | S fuel' =>
      if n <? 10 then digit n
      else digits_fuel fuel' (n / 10) ++ digit (n mod 10)
  end.

Definition digits (n : Z) : string :=
  digits_fuel (S (Z.to_nat (Z.log2 n))) n.

(** [f"{n}"] for an [int]. *)
Definition int (n : Z) : string :=
  if n <? 0 then "-" ++ digits (- n) else digits n.

(** Commas between groups of three digits, counted from the right. *)
Fixpoint group3 (fuel : nat) (n : Z) : string :=
  match fuel with
  | O => ""
  | S fuel' =>
      if n <? 1000 then digits n
      else
        let r := n mod 1000 in
        group3 fuel' (n / 1000) ++ "," ++
        digit (r / 100) ++ digit (r / 10 mod 10) ++ digit (r mod 10)
  end.

(** [f"{n:,}"] for an [int]. *)
Definition int_comma (n : Z) : string :=
  let a := Z.abs n in
  (if n <? 0 then "-" else "") ++ group3 (S (Z.to_nat (Z.log2 a))) a.

(** [m * 2^e * 100] rounded to the nearest integer, ties to even. *)
Definition round_hundredths (m : Z) (e : Z) : Z :=
  if 0 <=? e then m * 100 * 2 ^ e
  else
    let d := 2 ^ (- e) in
    let q := (m * 100) / d in
    let r := (m * 100) mod d in
    if (d <? 2 * r) || ((d =? 2 * r) && Z.odd q) then q + 1 else q.

(** [f"{x:.2f}"] for a [float]. *)
Definition float2 (x : float) : string :=
  match Prim2SF x with
  | S754_nan => "nan"
  | S754_infinity s => if s then "-inf" else "inf"
  | S754_zero s => if s then "-0.00" else "0.00"
  | S754_finite s m e =>
      let n := round_hundredths (Zpos m) e in
      (if s then "-" else "") ++ digits (n / 100) ++ "." ++
      digit (n mod 100 / 10) ++ digit (n mod 10)
  end.

End PyFormat.

(** ** [ContextManager] *)

Definition nl : string := String (ascii_of_nat 10) EmptyString.

(** The texts of a list, one after the other. *)
Definition concat_all (ls : list string) : string :=
  fold_right String.append EmptyString ls.

(** The text made of the given lines, each followed by a newline. *)
Definition text_of_lines (ls : list string) : string :=
  concat_all (map (fun l => l ++ nl) ls).

Definition context_header (codebase_data : ScanResult) : string :=
  text_of_lines
    [ "# INTELLIGENT CODEBASE ANALYSIS CONTEXT";
      "";
      "## PROJECT OVERVIEW";
      "- **Path:** " ++ project_path codebase_data;
      "- **Files Loaded:** " ++ PyFormat.int (total_files codebase_data) ++
        " (out of " ++ PyFormat.int (scanned_files codebase_data) ++ " scanned)";
      "- **Total Tokens:** " ++ PyFormat.int_comma (total_tokens codebase_data);
      "- **Analysis Capabilities:** Architecture, Semantic Search, Improvements, Code Flow";
      "";
      "## CODEBASE STRUCTURE";
      "" ].

Definition tree_line (file_info : FileInfo) : string :=
  "- " ++ relative_path file_info ++ " (" ++ language file_info ++ ", " ++
  PyFormat.int (tokens file_info) ++ " tokens, score: " ++
  PyFormat.float2 (relevance_score file_info) ++ ")" ++ nl.

Definition more_files_line (n : Z) : string :=
  "... and " ++ PyFormat.int n ++ " more files" ++ nl.

Definition content_heading (file_info : FileInfo) : string :=
  "### üìÅ " ++ relative_path file_info ++ " (" ++ language file_info ++ ")" ++ nl.

Definition content_block (file_info : FileInfo) : string :=
  "```" ++ language file_info ++ nl ++ content file_info ++ nl ++ "```" ++ nl ++ nl.

Definition analysis_instructions : string :=
  nl ++ text_of_lines
    [ "## ANALYSIS INSTRUCTIONS:";
      "You now have the complete codebase loaded in your context with intelligent file prioritization.";
      "When answering questions:";
      "1. Reference specific files and line numbers when possible";
      "2. Consider the overall architecture and relationships between files";
      "3. Provide concrete, actionable insights";
      "4. Focus on the most relevant files based on the user's query";
      "5. Use your understanding of the complete codebase context" ].

(** [ContextManager.create_codebase_context]: [context] is extended
    statement by statement, the two [for] loops being left folds. *)
Definition create_codebase_context (codebase_data : ScanResult) : string :=
  let context := context_header codebase_data in
  let context := context ++ "### File Tree:" ++ nl in
  let context :=
    fold_left (fun context file_info => context ++ tree_line file_info)
              (firstn 20 (files codebase_data)) context in
  let context :=
    if (20 <? List.length (files codebase_data))%nat
    then context ++
         more_files_line (Z.of_nat (List.length (files codebase_data)) - 20)
    else context in
  let context := context ++ nl ++ "## COMPLETE FILE CONTENTS:" ++ nl ++ nl in
  let context :=
    fold_left (fun context file_info =>
                 (context ++ content_heading file_info) ++ content_block file_info)
              (files codebase_data) context in
  let context := context ++ analysis_instructions in
  context.

(** ** The global state and the [load_codebase] tool of [handle_tool_call] *)

Record ServerState : Type := mkServerState {
  current_codebase_context : option string;
  current_project_path : option string;
  current_codebase_data : option ScanResult
}.

(** The JSON-RPC answer: a [result] with one text item, or an [error]. *)
Inductive Response : Type :=
| RpcResult (text : string)
| RpcError (message : string).

(** The value of [max_tokens] in [arguments]: an integer (a JSON boolean
    counts as 0 or 1), or a value of another type, given by the name of its
    Python type: [NoneType] for null, [str], [list], [dict]. A number with a
    fractional part is outside the model. *)
Inductive Budget : Type :=
| BudgetInt (n : Z)
| BudgetOther (type_name : string).

(** An exception of the walk: [rglob] and [file_path.is_dir()] stand
    outside the [try] of the loop, so what they raise leaves [scan_codebase].
    [detail] is the rest of the message of the exception. *)
Inductive WalkException : Type :=
| OSError (errno : Z) (detail : string)
| RecursionError (detail : string).

(** An exception that leaves [scan_codebase]: one of the walk, or the
    [TypeError] of [used_tokens + file_info['tokens'] <= max_tokens] when
    [max_tokens] is no number. *)
Inductive ScanException : Type :=
| WalkFailed (e : WalkException)
| NotComparable (type_name : string).

(** [str(e)] *)
Definition str_exception (e : ScanException) : string :=
  match e with
  | WalkFailed (OSError errno detail) =>
      "[Errno " ++ PyFormat.int errno ++ "] " ++ detail
  | WalkFailed (RecursionError detail) =>
      "maximum recursion depth exceeded" ++ detail
  | NotComparable type_name =>
      "'<=' not supported between instances of 'int' and '" ++ type_name ++ "'"
  end.

(** What is at an existing path: the resolved path and the tree when the
    walk runs to its end, or the exception that the walk raises. *)
Inductive Found : Type :=
| Walked (root : string) (tree : Node)
| WalkRaises (e : WalkException).

(** What a call does to the world outside the three globals. *)
Inductive Effect : Type :=
| PathExists (p : string)                   (* os.path.exists(p) *)
| ScanCodebase (p : string) (max_tokens : Budget). (* CodebaseIngestion.scan_codebase(p, max_tokens) *)

Record Outcome : Type := mkOutcome {
  out_state : ServerState;
  out_response : Response;
  out_effects : list Effect
}.

(** The keys of [arguments] that [load_codebase] reads; [None] for an
    absent key. *)
Record Arguments : Type := mkArguments {
  arg_project_path : option string;
  arg_max_tokens : option Budget
}.

(** [languages[lang] = languages.get(lang, 0) + 1] on the items of the
    dict, in insertion order. *)
Fixpoint count_language (languages : list (string * Z)) (lang : string) : list (string * Z) :=
  match languages with
  | [] => [(lang, 1)]
  | (l, c) :: rest =>
      if String.eqb l lang then (l, c + 1) :: rest
      else (l, c) :: count_language rest lang
  end.

(** [sorted(languages.items())]; the keys of a dict are distinct, so the
    order of the pairs is the order of their keys. *)
Fixpoint insert_item (it : string * Z) (l : list (string * Z)) : list (string * Z) :=
  match l with
  | [] => [it]
  | x :: rest =>
      if String.ltb (fst x) (fst it) then x :: insert_item it rest else it :: l
  end.

Definition sorted_items (items : list (string * Z)) : list (string * Z) :=
  fold_right insert_item [] items.

Definition lang_summary_of (data : ScanResult) : string :=
  let languages :=
    fold_left (fun languages file_info => count_language languages (language file_info))
              (files data) [] in
  PyStr.join ", "
    (map (fun it => fst it ++ ": " ++ PyFormat.int (snd it)) (sorted_items languages)).

Definition loaded_message (codebase_data : ScanResult) : string :=
  PyStr.join nl
    [ "‚úÖ INTELLIGENT CODEBASE LOADED SUCCESSFULLY";
      "";
      "üìÅ **Project:** " ++ project_path codebase_data;
      "üìÑ **Files Loaded:** " ++ PyFormat.int (total_files codebase_data) ++
        " (from " ++ PyFormat.int (scanned_files codebase_data) ++ " scanned)";
      "üßÆ **Tokens Used:** " ++ PyFormat.int_comma (total_tokens codebase_data) ++
        " / 1,000,000";
      "üìä **Languages:** " ++ lang_summary_of codebase_data;
      "üéØ **Prioritization:** Files ranked by relevance score";
      "";
      "Gemini now has your entire codebase intelligently loaded in context!";
      "";
      "**Available Analysis Tools:**";
      "‚Ä¢ `analyze_architecture` - Comprehensive architecture analysis";
      "‚Ä¢ `semantic_search` - Natural language code search  ";
      "‚Ä¢ `suggest_improvements` - Targeted improvement suggestions";
      "‚Ä¢ `explain_codeflow` - Trace functionality across files";
      "‚Ä¢ `codebase_summary` - Complete project overview";
      "‚Ä¢ `ask_with_context` - Ask anything about your code";
      "";
      "Ready for intelligent analysis! üß†" ].

Definition wrap_result (result : string) : string :=
  "üß† GEMINI INTELLIGENT ANALYSIS:" ++ nl ++ nl ++ result.

(** The text answered when [os.path.exists(project_path)] is false. *)
Definition missing_path_message (project_path : string) : string :=
  "‚ùå Error: Project path '" ++ project_path ++ "' does not exist".

Section Server.

Variable TIKTOKEN_AVAILABLE : bool.
Variable encode : string -> option (list Z).

(** [scan_codebase(project_path, max_tokens)] as [handle_tool_call] runs
    it: the exception that leaves it, or the dict it returns. The comparison
    with a [max_tokens] that is no number raises at the first file of the
    sorted list; with no file it is never evaluated. *)
Definition call_scan_codebase (found : Found) (max_tokens : Budget)
  : ScanException + ScanResult :=
  match found with
  | WalkRaises e => inl (WalkFailed e)
  | Walked root tree =>
      match max_tokens with
      | BudgetInt m => inr (scan_codebase TIKTOKEN_AVAILABLE encode root tree m)
      | BudgetOther type_name =>
          match sort_by_relevance
                  (scan_entries TIKTOKEN_AVAILABLE encode root (rglob tree)) with
          | [] => inr (mkScanResult [] 0 0 0 root)
          | _ :: _ => inl (NotComparable type_name)
          end
      end
  end.

(** The file system: [None] when [os.path.exists] is false, otherwise what
    is found at the path. *)
Variable filesystem : string -> option Found.

(** The answer of the branches of the other tools; they call the external
    model and assign none of the globals. *)
Variable other_tools : ServerState -> string -> Response.

(** [handle_tool_call], with the globals passed in and out. *)
Definition handle_tool_call (st : ServerState) (tool_name : string)
           (arguments : Arguments) : Outcome :=
  if String.eqb tool_name "load_codebase" then
    let max_tokens :=
      match arg_max_tokens arguments with
      | Some m => m
      | None => BudgetInt 900000
      end in
    match arg_project_path arguments with
    | None =>
        (* os.path.exists(None) raises TypeError: the except clause answers *)
        mkOutcome st
          (RpcError "stat: path should be string, bytes, os.PathLike or integer, not NoneType")
          []
    | Some project_path =>
        match filesystem project_path with
        | None =>
            let result := missing_path_message project_path in
            mkOutcome st (RpcResult (wrap_result result)) [PathExists project_path]
        | Some found =>
            match call_scan_codebase found max_tokens with
            | inl e =>
                (* the except clause answers; no global has been assigned *)
                mkOutcome st (RpcError (str_exception e))
                          [PathExists project_path; ScanCodebase project_path max_tokens]
            | inr codebase_data =>
                let st' :=
                  mkServerState (Some (create_codebase_context codebase_data))
                                (Some project_path)
                                (Some codebase_data) in
                mkOutcome st' (RpcResult (wrap_result (loaded_message codebase_data)))
                          [PathExists project_path; ScanCodebase project_path max_tokens]
            end
        end
    end
  else
    mkOutcome st (other_tools st tool_name) [].

End Server.

(** * Properties *)

(** ** Token counting *)

(** The estimator as the specification words it: [ceil(byte_length / 4)]. *)
Definition spec_ceil_estimate (text : string) : Z := (PyStr.len text + 3) / 4.

Lemma len_nonneg (text : string) : 0 <= PyStr.len text.
Proof. unfold PyStr.len. lia. Qed.

Lemma count_tokens_nonneg (tk : bool) (enc : string -> option (list Z))
      (text : string) (n : Z) :
  count_tokens tk enc text = Some n -> 0 <= n.
Proof.
  unfold count_tokens. destruct tk.
  - destruct (enc text) as [toks|]; intros [= <-]; lia.
  - intros [= <-]. apply Z.div_pos; [apply len_nonneg | lia].
Qed.

(** C7, as the specification states it, fails on a text of three characters:
    the code counts 0 tokens where [ceil(3 / 4)] is 1. *)
Lemma C7_ceil_counterexample :
  count_tokens false (fun _ => None) "abc" = Some 0 /\
  spec_ceil_estimate "abc" = 1 /\
  count_tokens false (fun _ => None) "abc" <> Some (spec_ceil_estimate "abc").
Proof.
  split; [reflexivity|]. split; [reflexivity|]. discriminate.
Qed.

(** C7 (amended): without the exact tokenizer, [count_tokens] returns the
    floor of the text length divided by 4, which is never negative; it never
    raises. *)
Theorem C7_fallback_is_floor (enc : string -> option (list Z)) (text : string) :
  exists n : Z,
    count_tokens false enc text = Some n /\
    n = PyStr.len text / 4 /\
    4 * n <= PyStr.len text < 4 * n + 4 /\
    0 <= n.
Proof.
  exists (PyStr.len text / 4).
  pose proof (len_nonneg text) as Hlen.
  pose proof (Z.div_mod (PyStr.len text) 4 ltac:(lia)) as Hdm.
  pose proof (Z.mod_pos_bound (PyStr.len text) 4 ltac:(lia)) as Hb.
  repeat split; lia.
Qed.

(** ** The size tier of the score *)

Lemma float_neq_by_eqb (x y : float) : PrimFloat.eqb x y = false ->
  PrimFloat.eqb x x = true -> x <> y.
Proof. intros Hxy Hxx Heq. rewrite <- Heq in Hxy. congruence. Qed.

(** C3: what the size stage of the code computes. Below 100 tokens the
    score is multiplied by 1.1 and above 5,000 by 0.8; the branch for more
    than 10,000 tokens is never reached, so a file of 20,000 tokens gets 0.8
    and not 0.6. A file of exactly 5,000 tokens keeps its score. *)
Theorem C3_size_tier_of_the_code :
  (forall (toks : Z) (s : float),
      size_stage toks s =
      if toks <? 100 then (s * 1.1)%float
      else if 5000 <? toks then (s * 0.8)%float
      else s) /\
  size_stage 20000 1%float = 0.8%float /\
  size_stage 20000 1%float <> 0.6%float /\
  size_stage 5000 1%float = 1%float /\
  calculate_relevance_score
    (mkFileInfo "/proj/notes.md" "notes.md" "text" 20000 80000 0 "markdown" 0%float)
    "/proj" = 0.8%float.
Proof.
  split; [|repeat split].
  - intros toks s. unfold size_stage.
    rewrite !Z.gtb_ltb.
    destruct (toks <? 100) eqn:H1; [reflexivity|].
    destruct (5000 <? toks) eqn:H2; [reflexivity|].
    destruct (10000 <? toks) eqn:H3; [|reflexivity].
    apply Z.ltb_lt in H3. apply Z.ltb_ge in H2. lia.
  - apply float_neq_by_eqb; reflexivity.
Qed.

(** ** The token budget *)

(** [sum(f['tokens'] for f in l)] *)
Definition sum_tokens (l : list FileInfo) : Z :=
  fold_right (fun fi acc => tokens fi + acc) 0 l.

Lemma sum_tokens_app (l1 l2 : list FileInfo) :
  sum_tokens (l1 ++ l2) = sum_tokens l1 + sum_tokens l2.
Proof. induction l1 as [|x l1 IH]; simpl; [reflexivity | rewrite IH; lia]. Qed.

(** The loop keeps a prefix of the list: its running total is the number of
    tokens it has taken, and the first record left over, if any, is one that
    does not fit. *)
Lemma trim_loop_prefix (l : list FileInfo) (max_tokens : Z) :
  forall (sel : list FileInfo) (used : Z),
  exists k : nat,
    trim_loop l max_tokens sel used =
      ((sel ++ firstn k l)%list, used + sum_tokens (firstn k l)) /\
    (k <= List.length l)%nat /\
    forall c, nth_error l k = Some c ->
              max_tokens < used + sum_tokens (firstn k l) + tokens c.
Proof.
  induction l as [|x l IH]; intros sel used.
  - exists 0%nat. simpl. rewrite app_nil_r, Z.add_0_r.
    repeat split; [lia | discriminate].
  - simpl. destruct (used + tokens x <=? max_tokens) eqn:Hfit.
    + destruct (IH (sel ++ [x])%list (used + tokens x)) as (k & Heq & Hk & Hrej).
      exists (S k). simpl. rewrite Heq, <- app_assoc. simpl.
      repeat split.
      * f_equal. lia.
      * lia.
      * intros c Hc. specialize (Hrej c Hc). lia.
    + exists 0%nat. simpl. rewrite app_nil_r, Z.add_0_r.
      repeat split; [lia|]. intros c [= <-]. apply Z.leb_gt in Hfit. lia.
Qed.

Lemma trim_loop_budget (l : list FileInfo) (max_tokens : Z) :
  forall (sel : list FileInfo) (used : Z),
    used <= max_tokens ->
    snd (trim_loop l max_tokens sel used) <= max_tokens.
Proof.
  induction l as [|x l IH]; intros sel used Hused; simpl; [exact Hused|].
  destruct (used + tokens x <=? max_tokens) eqn:Hfit.
  - apply IH. apply Z.leb_le in Hfit. exact Hfit.
  - exact Hused.
Qed.

Lemma trim_loop_total (l : list FileInfo) (max_tokens : Z) :
  forall (sel : list FileInfo) (used : Z),
    used = sum_tokens sel ->
    snd (trim_loop l max_tokens sel used) =
    sum_tokens (fst (trim_loop l max_tokens sel used)).
Proof.
  intros sel used Hused.
  destruct (trim_loop_prefix l max_tokens sel used) as (k & Heq & _).
  rewrite Heq. simpl. rewrite sum_tokens_app. lia.
Qed.

Section ScanFacts.

Variable tk : bool.
Variable enc : string -> option (list Z).
Variable root : string.

(** The candidate list of a scan: the records of the walk, sorted. *)
Definition candidates (tree : Node) : list FileInfo :=
  sort_by_relevance (scan_entries tk enc root (rglob tree)).

Lemma scan_codebase_files (tree : Node) (max_tokens : Z) :
  files (scan_codebase tk enc root tree max_tokens) =
  fst (trim_loop (candidates tree) max_tokens [] 0).
Proof.
  unfold scan_codebase, candidates.
  destruct (trim_loop _ max_tokens [] 0); reflexivity.
Qed.

Lemma scan_codebase_total_tokens (tree : Node) (max_tokens : Z) :
  total_tokens (scan_codebase tk enc root tree max_tokens) =
  snd (trim_loop (candidates tree) max_tokens [] 0).
Proof.
  unfold scan_codebase, candidates.
  destruct (trim_loop _ max_tokens [] 0); reflexivity.
Qed.

Lemma scan_codebase_scanned_files (tree : Node) (max_tokens : Z) :
  scanned_files (scan_codebase tk enc root tree max_tokens) =
  Z.of_nat (List.length (candidates tree)).
Proof.
  unfold scan_codebase, candidates.
  destruct (trim_loop _ max_tokens [] 0); reflexivity.
Qed.

(** The selected files are the first [k] candidates. *)
Lemma scan_codebase_prefix (tree : Node) (max_tokens : Z) :
  exists k : nat,
    files (scan_codebase tk enc root tree max_tokens) = firstn k (candidates tree).
Proof.
  rewrite scan_codebase_files.
  destruct (trim_loop_prefix (candidates tree) max_tokens [] 0) as (k & Heq & _).
  exists k. rewrite Heq. reflexivity.
Qed.

End ScanFacts.

(** A small project used to instantiate the statements below. *)
Definition demo_tree : Node :=
  Dir "proj"
    [ Dir "src" [ File "main.py" (Some "print('hello world')") (Some 1700000000) ];
      File "README.md" (Some "# Demo project") (Some 1700000001);
      File "notes.txt" (Some "not a code file") (Some 1700000002) ].

(** C1: for every tree, tokenizer and non-negative budget, [total_tokens]
    of the result is the sum of [tokens] over the selected files and does not
    exceed the budget. *)
Theorem C1_budget_invariant (tk : bool) (enc : string -> option (list Z))
        (root : string) (tree : Node) (max_tokens : Z) :
  0 <= max_tokens ->
  let r := scan_codebase tk enc root tree max_tokens in
  total_tokens r = sum_tokens (files r) /\ total_tokens r <= max_tokens.
Proof.
  intros Hmax r. subst r.
  rewrite scan_codebase_total_tokens, scan_codebase_files. split.
  - apply trim_loop_total. reflexivity.
  - apply trim_loop_budget. exact Hmax.
Qed.

Lemma C1_budget_invariant_witness :
  0 <= 5 /\
  let r := scan_codebase false (fun _ => None) "/proj" demo_tree 5 in
  total_tokens r = sum_tokens (files r) /\ total_tokens r <= 5.
Proof.
  split; [lia|].
  apply (C1_budget_invariant false (fun _ => None) "/proj" demo_tree 5). lia.
Defined.

(** ** The greedy cut *)

(** Once the loop has taken all of [pre], it goes on with what follows. *)
Lemma trim_loop_app (max_tokens : Z) (rest : list FileInfo) :
  forall (pre sel : list FileInfo) (used0 used : Z),
    trim_loop pre max_tokens sel used0 = ((sel ++ pre)%list, used) ->
    trim_loop (pre ++ rest) max_tokens sel used0 =
    trim_loop rest max_tokens (sel ++ pre) used.
Proof.
  induction pre as [|x pre IH]; intros sel used0 used H; simpl in *.
  - rewrite app_nil_r in *. injection H as ->. reflexivity.
  - destruct (used0 + tokens x <=? max_tokens).
    + replace (sel ++ x :: pre)%list with ((sel ++ [x]) ++ pre)%list in *
        by (rewrite <- app_assoc; reflexivity).
      apply IH. exact H.
    + exfalso. injection H as Hsel _.
      apply (f_equal (@List.length FileInfo)) in Hsel.
      rewrite length_app in Hsel. simpl in Hsel. lia.
Qed.

(** C2: when the loop has accepted every candidate before position
    [length pre] and the candidate [c] at that position does not fit, the
    selection is exactly [pre]: whatever follows [c] is left out, whatever
    its size. *)
Theorem C2_greedy_cut (max_tokens : Z) (pre post : list FileInfo)
        (c : FileInfo) (used : Z) :
  trim_loop pre max_tokens [] 0 = (pre, used) ->
  max_tokens < used + tokens c ->
  trim_loop (pre ++ c :: post) max_tokens [] 0 = (pre, used) /\
  forall j : nat,
    (List.length pre <= j)%nat ->
    nth_error (fst (trim_loop (pre ++ c :: post) max_tokens [] 0)) j = None.
Proof.
  intros Hpre Hrej.
  assert (Hcut : trim_loop (pre ++ c :: post) max_tokens [] 0 = (pre, used)).
  { rewrite (trim_loop_app max_tokens (c :: post) pre [] 0 used Hpre).
    simpl. apply Z.leb_gt in Hrej. rewrite Hrej. reflexivity. }
  split; [exact Hcut|].
  intros j Hj. rewrite Hcut. simpl. apply nth_error_None. exact Hj.
Qed.

Definition plain_file (rel : string) (toks : Z) (score : float) : FileInfo :=
  mkFileInfo ("/proj/" ++ rel) rel "text" toks 4 0 "python" score.

(** The third file has a single token and would fit after the first, yet it
    is left out with the second. *)
Lemma C2_greedy_cut_witness :
  let a := plain_file "a.py" 800 1.5%float in
  let b := plain_file "b.py" 800 1.2%float in
  let tiny := plain_file "c.py" 1 1%float in
  trim_loop [a] 1000 [] 0 = ([a], 800) /\
  1000 < 800 + tokens b /\
  800 + tokens tiny <= 1000 /\
  trim_loop [a; b; tiny] 1000 [] 0 = ([a], 800).
Proof.
  intros a b tiny.
  split; [reflexivity|]. split; [simpl; lia|]. split; [simpl; lia|].
  apply (C2_greedy_cut 1000 [a] [tiny] b 800); [reflexivity | simpl; lia].
Defined.

(** ** What the filters of the scan let through *)

Lemma append_assoc (a b c : string) : ((a ++ b) ++ c = a ++ (b ++ c))%string.
Proof. induction a as [|x a IH]; simpl; [reflexivity | rewrite IH; reflexivity]. Qed.

(** The final component of a path is not changed by the directories put in
    front of it. *)
Lemma name_from_slash (dir rest : string) :
  forall acc : string,
    PyPath.name_from acc (dir ++ String "/" rest) = PyPath.name_from EmptyString rest.
Proof.
  induction dir as [|ch dir IH]; intros acc; simpl.
  - reflexivity.
  - destruct (Ascii.eqb ch "/"); apply IH.
Qed.

Lemma name_slash (dir rest : string) :
  PyPath.name (dir ++ "/" ++ rest) = PyPath.name rest.
Proof. unfold PyPath.name. apply name_from_slash. Qed.

Lemma name_joinpath (root rel : string) :
  PyPath.name (PyPath.joinpath root rel) = PyPath.name rel.
Proof.
  unfold PyPath.joinpath. destruct (String.eqb root "/").
  - apply (name_slash "" rel).
  - apply name_slash.
Qed.

Lemma suffix_joinpath (root rel : string) :
  PyPath.suffix (PyPath.joinpath root rel) = PyPath.suffix rel.
Proof. unfold PyPath.suffix. rewrite name_joinpath. reflexivity. Qed.

Lemma get_language_joinpath (root rel : string) :
  get_language (PyPath.joinpath root rel) = get_language rel.
Proof. unfold get_language. rewrite suffix_joinpath. reflexivity. Qed.

Lemma truthy_nonempty (s : string) : PyStr.truthy s = true <-> s <> "".
Proof. destruct s; simpl; split; congruence. Qed.

Lemma any_in_false (dirs : list string) (p : string) :
  any_in dirs p = false <-> forall d, In d dirs -> PyStr.contains d p = false.
Proof.
  unfold any_in. induction dirs as [|x dirs IH]; simpl.
  - split; [intros _ d [] | reflexivity].
  - rewrite orb_false_iff, IH. split.
    + intros [Hx Hd] d [<-|Hin]; auto.
    + intros H. split; [apply H; left; reflexivity | intros d Hd; apply H; right; exact Hd].
Qed.

Lemma In_firstn {A : Type} (k : nat) (l : list A) (x : A) :
  In x (firstn k l) -> In x l.
Proof.
  intros H. rewrite <- (firstn_skipn k l). apply in_or_app. left. exact H.
Qed.

Lemma In_insert_by_score (x fi : FileInfo) (l : list FileInfo) :
  In x (insert_by_score fi l) <-> x = fi \/ In x l.
Proof.
  induction l as [|y l IH]; simpl.
  - intuition congruence.
  - destruct (relevance_score fi <? relevance_score y)%float; simpl.
    + rewrite IH. intuition congruence.
    + intuition congruence.
Qed.

Lemma In_sort_by_relevance (x : FileInfo) (l : list FileInfo) :
  In x (sort_by_relevance l) <-> In x l.
Proof.
  induction l as [|y l IH]; simpl; [tauto|].
  rewrite In_insert_by_score, IH. intuition congruence.
Qed.

Lemma length_insert_by_score (fi : FileInfo) (l : list FileInfo) :
  List.length (insert_by_score fi l) = S (List.length l).
Proof.
  induction l as [|y l IH]; simpl; [reflexivity|].
  destruct (relevance_score fi <? relevance_score y)%float; simpl; congruence.
Qed.

Lemma length_sort_by_relevance (l : list FileInfo) :
  List.length (sort_by_relevance l) = List.length l.
Proof.
  induction l as [|y l IH]; simpl; [reflexivity|].
  rewrite length_insert_by_score. congruence.
Qed.

Section EntryFacts.

Variable tk : bool.
Variable enc : string -> option (list Z).
Variable root : string.

(** The record of an entry that passes every filter. *)
Definition record_of (e : Entry) (text : string) (toks mtime : Z) : FileInfo :=
  let fi0 :=
    mkFileInfo (PyPath.joinpath root (e_rel e)) (e_rel e) text toks
               (PyStr.len text) mtime (get_language (e_rel e)) 0%float in
  set_relevance_score fi0 (calculate_relevance_score fi0 root).

(** An entry is kept exactly when it passes every filter. *)
Lemma scan_entry_Some (e : Entry) (fi : FileInfo) :
  scan_entry tk enc root e = Some fi <->
  e_is_dir e = false /\
  PyStr.startswith (PyPath.name (e_rel e)) "." = false /\
  any_in_patterns (e_rel e) = false /\
  PyStr.mem (PyStr.lower (PyPath.suffix (e_rel e))) CODE_EXTENSIONS = true /\
  exists (text : string) (toks mtime : Z),
    e_data e = Some text /\
    PyStr.truthy (PyStr.strip text) = true /\
    count_tokens tk enc text = Some toks /\
    toks <= 50000 /\
    e_mtime e = Some mtime /\
    fi = record_of e text toks mtime.
Proof.
  unfold scan_entry, record_of. rewrite get_language_joinpath.
  destruct (e_is_dir e); cbn [orb negb].
  { split; [discriminate | intros [? _]; discriminate]. }
  destruct (PyStr.startswith (PyPath.name (e_rel e)) "."); cbn [orb negb].
  { split; [discriminate | intros (_ & ? & _); discriminate]. }
  destruct (any_in_patterns (e_rel e)); cbn [orb negb].
  { split; [discriminate | intros (_ & _ & ? & _); discriminate]. }
  destruct (PyStr.mem (PyStr.lower (PyPath.suffix (e_rel e))) CODE_EXTENSIONS);
    cbn [orb negb].
  2:{ split; [discriminate | intros (_ & _ & _ & ? & _); discriminate]. }
  destruct (e_data e) as [text|].
  2:{ split; [discriminate | intros (_ & _ & _ & _ & ? & ? & ? & ? & _); discriminate]. }
  destruct (PyStr.truthy (PyStr.strip text)) eqn:Hstrip; cbn [orb negb].
  2:{ split; [discriminate|].
      intros (_ & _ & _ & _ & ? & ? & ? & [= <-] & ? & _). congruence. }
  destruct (count_tokens tk enc text) as [toks|] eqn:Hcount.
  2:{ split; [discriminate|].
      intros (_ & _ & _ & _ & ? & ? & ? & [= <-] & _ & ? & _). congruence. }
  destruct (toks >? 50000) eqn:Hbig.
  { split; [discriminate|].
    intros (_ & _ & _ & _ & ? & t' & ? & [= <-] & _ & Hc & Hle & _).
    rewrite Hcount in Hc. injection Hc as <-.
    rewrite Z.gtb_ltb in Hbig. apply Z.ltb_lt in Hbig. lia. }
  destruct (e_mtime e) as [mtime|].
  2:{ split; [discriminate|].
      intros (_ & _ & _ & _ & ? & ? & ? & _ & _ & _ & _ & ? & _). discriminate. }
  rewrite Z.gtb_ltb in Hbig. apply Z.ltb_ge in Hbig.
  split.
  - intros [= <-]. repeat split. exists text, toks, mtime. repeat split; auto.
  - intros (_ & _ & _ & _ & t & n & m & [= <-] & _ & Hc & _ & [= <-] & ->).
    rewrite Hcount in Hc. injection Hc as <-. reflexivity.
Qed.

Lemma In_scan_entries (fi : FileInfo) (walk : list Entry) :
  In fi (scan_entries tk enc root walk) <->
  exists e, In e walk /\ scan_entry tk enc root e = Some fi.
Proof.
  induction walk as [|e walk IH]; simpl.
  - split; [tauto | intros (e & [] & _)].
  - destruct (scan_entry tk enc root e) as [fi'|] eqn:He; simpl; rewrite ?IH.
    + split.
      * intros [<-|(e' & Hin & He')]; [exists e; auto | exists e'; auto].
      * intros (e' & [<-|Hin] & He'); [left; congruence | right; exists e'; auto].
    + split.
      * intros (e' & Hin & He'). exists e'; auto.
      * intros (e' & [<-|Hin] & He'); [congruence | exists e'; auto].
Qed.

(** Every selected file is the record of an entry of the walk. *)
Lemma selected_from_walk (tree : Node) (max_tokens : Z) (fi : FileInfo) :
  In fi (files (scan_codebase tk enc root tree max_tokens)) ->
  exists e, In e (rglob tree) /\ scan_entry tk enc root e = Some fi.
Proof.
  destruct (scan_codebase_prefix tk enc root tree max_tokens) as (k & ->).
  intros Hin. apply In_firstn in Hin.
  unfold candidates in Hin. rewrite In_sort_by_relevance in Hin.
  apply In_scan_entries. exact Hin.
Qed.

End EntryFacts.

(** C5: every selected file has an allowed extension (read from its
    relative path, which has the extension of its absolute path), a relative
    path that contains none of the skip patterns, a content that is not blank,
    and at most 50,000 tokens. *)
Theorem C5_filter_completeness (tk : bool) (enc : string -> option (list Z))
        (root : string) (tree : Node) (max_tokens : Z) (fi : FileInfo) :
  In fi (files (scan_codebase tk enc root tree max_tokens)) ->
  PyStr.mem (PyStr.lower (PyPath.suffix (relative_path fi))) CODE_EXTENSIONS = true /\
  PyPath.suffix (path fi) = PyPath.suffix (relative_path fi) /\
  (forall pat, In pat SKIP_PATTERNS -> PyStr.contains pat (relative_path fi) = false) /\
  PyStr.strip (content fi) <> "" /\
  tokens fi <= 50000.
Proof.
  intros Hin.
  destruct (selected_from_walk tk enc root tree max_tokens fi Hin) as (e & _ & He).
  apply scan_entry_Some in He.
  destruct He as (_ & _ & Hpat & Hext & text & toks & mtime & _ & Hstrip & _ & Htok & _ & ->).
  unfold record_of, set_relevance_score. cbn [relative_path path content tokens].
  repeat split.
  - exact Hext.
  - apply suffix_joinpath.
  - apply any_in_false. exact Hpat.
  - apply truthy_nonempty. exact Hstrip.
  - exact Htok.
Qed.

Lemma C5_filter_completeness_witness :
  exists fi : FileInfo,
    In fi (files (scan_codebase false (fun _ => None) "/proj" demo_tree 100)) /\
    relative_path fi = "src/main.py" /\
    PyStr.mem (PyStr.lower (PyPath.suffix (relative_path fi))) CODE_EXTENSIONS = true /\
    PyPath.suffix (path fi) = PyPath.suffix (relative_path fi) /\
    (forall pat, In pat SKIP_PATTERNS -> PyStr.contains pat (relative_path fi) = false) /\
    PyStr.strip (content fi) <> "" /\
    tokens fi <= 50000.
Proof.
  eexists. split; [vm_compute; left; reflexivity|].
  split; [reflexivity|].
  apply (C5_filter_completeness false (fun _ => None) "/proj" demo_tree 100).
  vm_compute. left. reflexivity.
Defined.

(** ** Files inside hidden directories *)

Section HiddenDirectories.

Variable tk : bool.
Variable enc : string -> option (list Z).
Variable root : string.

(** A regular file named [nm] inside any directory [dir], hidden or not,
    is kept as soon as its own name and its relative path pass the
    filters. *)
Lemma scan_entry_below_any_directory (dir nm text : string) (toks mtime : Z) :
  let e := mkEntry (dir ++ "/" ++ nm) false (Some text) (Some mtime) in
  PyStr.startswith (PyPath.name nm) "." = false ->
  any_in_patterns (e_rel e) = false ->
  PyStr.mem (PyStr.lower (PyPath.suffix nm)) CODE_EXTENSIONS = true ->
  PyStr.truthy (PyStr.strip text) = true ->
  count_tokens tk enc text = Some toks ->
  toks <= 50000 ->
  scan_entry tk enc root e = Some (record_of root e text toks mtime).
Proof.
  intros e Hname Hpat Hext Hstrip Hcount Htoks.
  apply scan_entry_Some. subst e. cbn [e_rel e_is_dir e_data e_mtime] in *.
  repeat split.
  - rewrite name_slash. exact Hname.
  - exact Hpat.
  - unfold PyPath.suffix. rewrite name_slash. exact Hext.
  - exists text, toks, mtime. repeat split; assumption.
Qed.

End HiddenDirectories.

Definition hidden_tree : Node :=
  Dir "proj"
    [ Dir ".hidden"
        [ File "util.py" (Some "def util(): return 1") (Some 1700000000) ] ].

(** C10: the hidden check reads the final component of a path only, so the
    directories in front of it do not matter; and the scan of a project whose
    only file is [.hidden/util.py] selects that file. *)
Theorem C10_file_in_hidden_directory_is_scanned :
  (forall dir rel : string,
      PyStr.startswith (PyPath.name (dir ++ "/" ++ rel)) "." =
      PyStr.startswith (PyPath.name rel) ".") /\
  In (mkEntry ".hidden/util.py" false (Some "def util(): return 1") (Some 1700000000))
     (rglob hidden_tree) /\
  exists fi : FileInfo,
    In fi (files (scan_codebase false (fun _ => None) "/proj" hidden_tree 900000)) /\
    relative_path fi = ".hidden/util.py" /\
    PyStr.startswith (relative_path fi) ".hidden/" = true /\
    PyStr.startswith (PyPath.name (relative_path fi)) "." = false /\
    any_in_patterns (relative_path fi) = false.
Proof.
  split; [|split].
  - intros dir rel. rewrite name_slash. reflexivity.
  - vm_compute. right. left. reflexivity.
  - eexists. split; [vm_compute; left; reflexivity|].
    repeat split.
Qed.

(** ** The order of the selected files *)

(** *** The scores a record can get

    Each stage of [calculate_relevance_score] has finitely many outcomes, so
    the scores form a finite list; on it the comparisons of floats are
    checked, by computation, to be the comparisons of a rank. *)

Definition language_outcomes (s : float) : list float :=
  map (fun w => (s * w)%float) (1.0%float :: map snd language_weights).

Definition directory_outcomes (s : float) : list float :=
  [ (s * 1.3)%float; (s * 0.7)%float; (s * 0.6)%float; s ].

Definition size_outcomes (s : float) : list float :=
  [ (s * 1.1)%float; (s * 0.8)%float; (s * 0.6)%float; s ].

Definition filename_outcomes (s : float) : list float :=
  [ (s * 1.5)%float; (s * 0.7)%float; s ].

Definition score_values : list float :=
  flat_map
    (fun s1 =>
       flat_map (fun s2 => flat_map filename_outcomes (size_outcomes s2))
                (directory_outcomes s1))
    (language_outcomes 1.0%float).

(** The number of scores strictly below [x]. *)
Definition rank (x : float) : nat :=
  List.length (filter (fun y => (y <? x)%float) score_values).

Definition ranked_values : list (float * nat) :=
  map (fun x => (x, rank x)) score_values.

Definition agrees (p q : float * nat) : bool :=
  Bool.eqb (fst p <? fst q)%float (snd p <? snd q)%nat &&
  Bool.eqb (fst p <=? fst q)%float (snd p <=? snd q)%nat &&
  Bool.eqb (fst p =? fst q)%float (snd p =? snd q)%nat.

Lemma dict_get_In {V : Type} (d : list (string * V)) (k : string) (v : V) :
  In (dict_get d k v) (v :: map snd d).
Proof.
  induction d as [|[k' v'] d IH]; simpl.
  - left. reflexivity.
  - destruct (String.eqb k k').
    + right. left. reflexivity.
    + destruct IH as [IH|IH]; [left; exact IH | right; right; exact IH].
Qed.

Lemma language_stage_outcome (lang : string) (s : float) :
  In (language_stage lang s) (language_outcomes s).
Proof.
  unfold language_stage, language_outcomes.
  apply (in_map (fun w => (s * w)%float)). apply dict_get_In.
Qed.

Lemma directory_stage_outcome (p : string) (s : float) :
  In (directory_stage p s) (directory_outcomes s).
Proof.
  unfold directory_stage, directory_outcomes.
  repeat match goal with |- context [if ?b then _ else _] => destruct b end;
    simpl; auto.
Qed.

Lemma size_stage_outcome (toks : Z) (s : float) :
  In (size_stage toks s) (size_outcomes s).
Proof.
  unfold size_stage, size_outcomes.
  repeat match goal with |- context [if ?b then _ else _] => destruct b end;
    simpl; auto.
Qed.

Lemma filename_stage_outcome (p : string) (s : float) :
  In (filename_stage p s) (filename_outcomes s).
Proof.
  unfold filename_stage, filename_outcomes.
  repeat match goal with |- context [if ?b then _ else _] => destruct b end;
    simpl; auto.
Qed.

Lemma score_in_values (fi : FileInfo) (root : string) :
  In (calculate_relevance_score fi root) score_values.
Proof.
  unfold calculate_relevance_score, score_values.
  apply in_flat_map. eexists. split; [apply language_stage_outcome|].
  apply in_flat_map. eexists. split; [apply directory_stage_outcome|].
  apply in_flat_map. eexists. split; [apply size_stage_outcome|].
  apply filename_stage_outcome.
Qed.

Lemma ranked_values_agree :
  forallb (fun p => forallb (agrees p) ranked_values) ranked_values = true.
Proof. vm_compute. reflexivity. Qed.

Lemma In_ranked_values (x : float) :
  In x score_values -> In (x, rank x) ranked_values.
Proof. intros H. apply (in_map (fun x => (x, rank x))). exact H. Qed.

Lemma values_agree (x y : float) :
  In x score_values -> In y score_values ->
  (x <? y)%float = (rank x <? rank y)%nat /\
  (x <=? y)%float = (rank x <=? rank y)%nat /\
  (x =? y)%float = (rank x =? rank y)%nat.
Proof.
  intros Hx Hy.
  pose proof ranked_values_agree as H.
  rewrite forallb_forall in H.
  specialize (H _ (In_ranked_values x Hx)).
  rewrite forallb_forall in H.
  specialize (H _ (In_ranked_values y Hy)).
  unfold agrees in H. cbn [fst snd] in H.
  rewrite !andb_true_iff in H. destruct H as [[H1 H2] H3].
  apply Bool.eqb_prop in H1. apply Bool.eqb_prop in H2. apply Bool.eqb_prop in H3.
  repeat split; assumption.
Qed.

(** A record whose score is one of the computed scores. *)
Definition scored (fi : FileInfo) : Prop := In (relevance_score fi) score_values.

(** [a] may stand before [b]: the score of [b] is at most the score of [a]. *)
Definition not_below (a b : FileInfo) : Prop :=
  (relevance_score b <=? relevance_score a)%float = true.

(** The score of [fi] equals [s], as [==] compares floats. *)
Definition tied (s : float) (fi : FileInfo) : bool :=
  (relevance_score fi =? s)%float.

Lemma not_below_rank (a b : FileInfo) :
  scored a -> scored b ->
  (not_below a b <-> (rank (relevance_score b) <= rank (relevance_score a))%nat).
Proof.
  intros Ha Hb. unfold not_below.
  destruct (values_agree _ _ Hb Ha) as (_ & -> & _).
  rewrite Nat.leb_le. reflexivity.
Qed.

Lemma Forall_insert_by_score (P : FileInfo -> Prop) (fi : FileInfo) (l : list FileInfo) :
  P fi -> Forall P l -> Forall P (insert_by_score fi l).
Proof.
  intros Hfi Hl. apply Forall_forall. intros x Hx.
  apply In_insert_by_score in Hx. destruct Hx as [->|Hx]; [exact Hfi|].
  rewrite Forall_forall in Hl. apply Hl. exact Hx.
Qed.

Lemma Forall_sort_by_relevance (P : FileInfo -> Prop) (l : list FileInfo) :
  Forall P l -> Forall P (sort_by_relevance l).
Proof.
  intros Hl. apply Forall_forall. intros x Hx.
  rewrite In_sort_by_relevance in Hx.
  rewrite Forall_forall in Hl. apply Hl. exact Hx.
Qed.

Lemma insert_by_score_sorted (fi : FileInfo) (l : list FileInfo) :
  scored fi -> Forall scored l ->
  StronglySorted not_below l ->
  StronglySorted not_below (insert_by_score fi l).
Proof.
  intros Hfi Hl Hs. induction Hs as [|x l Hs IH Hx]; simpl.
  - constructor; constructor.
  - inversion Hl as [|? ? Hsx Hsl]; subst.
    destruct (relevance_score fi <? relevance_score x)%float eqn:Hlt.
    + constructor; [apply IH; exact Hsl|].
      apply Forall_insert_by_score; [|exact Hx].
      apply (not_below_rank x fi Hsx Hfi).
      destruct (values_agree _ _ Hfi Hsx) as [E _].
      rewrite E in Hlt. apply Nat.ltb_lt in Hlt. lia.
    + assert (Hfx : (rank (relevance_score x) <= rank (relevance_score fi))%nat).
      { destruct (values_agree _ _ Hfi Hsx) as [E _].
        rewrite E in Hlt. apply Nat.ltb_ge in Hlt. exact Hlt. }
      constructor; [constructor; assumption|].
      constructor; [apply (not_below_rank fi x Hfi Hsx); exact Hfx|].
      rewrite Forall_forall in *. intros y Hy.
      apply (not_below_rank fi y Hfi (Hsl y Hy)).
      pose proof (proj1 (not_below_rank x y Hsx (Hsl y Hy)) (Hx y Hy)) as Hxy.
      lia.
Qed.

Lemma sort_by_relevance_sorted (l : list FileInfo) :
  Forall scored l -> StronglySorted not_below (sort_by_relevance l).
Proof.
  induction l as [|x l IH]; intros Hl; simpl.
  - constructor.
  - inversion Hl; subst.
    apply insert_by_score_sorted; auto using Forall_sort_by_relevance.
Qed.

(** Inserting [fi] puts it in front of the records tied with it. *)
Lemma filter_tied_insert (s : float) (fi : FileInfo) (l : list FileInfo) :
  In s score_values -> scored fi -> Forall scored l ->
  filter (tied s) (insert_by_score fi l) =
  if tied s fi then fi :: filter (tied s) l else filter (tied s) l.
Proof.
  intros Hs Hfi Hl. induction l as [|x l IH]; simpl.
  - reflexivity.
  - inversion Hl as [|? ? Hsx Hsl]; subst.
    destruct (relevance_score fi <? relevance_score x)%float eqn:Hlt; simpl.
    + rewrite (IH Hsl).
      destruct (tied s fi) eqn:Hfs; [|reflexivity].
      assert (Hx : tied s x = false).
      { unfold tied in *.
        destruct (values_agree _ _ Hfi Hsx) as [E _]. rewrite E in Hlt.
        destruct (values_agree _ _ Hfi Hs) as (_ & _ & E1). rewrite E1 in Hfs.
        destruct (values_agree _ _ Hsx Hs) as (_ & _ & E2). rewrite E2.
        apply Nat.ltb_lt in Hlt. apply Nat.eqb_eq in Hfs. apply Nat.eqb_neq. lia. }
      rewrite Hx. reflexivity.
    + reflexivity.
Qed.

(** The sort is stable: the records tied at a score keep their order. *)
Lemma filter_tied_sort (s : float) (l : list FileInfo) :
  In s score_values -> Forall scored l ->
  filter (tied s) (sort_by_relevance l) = filter (tied s) l.
Proof.
  intros Hs. induction l as [|x l IH]; intros Hl; simpl.
  - reflexivity.
  - inversion Hl; subst.
    rewrite filter_tied_insert; auto using Forall_sort_by_relevance.
    rewrite IH by assumption. reflexivity.
Qed.

Lemma StronglySorted_firstn {A : Type} (R : A -> A -> Prop) (l : list A) :
  StronglySorted R l -> forall k, StronglySorted R (firstn k l).
Proof.
  induction 1 as [|x l Hs IH Hx]; intros k.
  - rewrite firstn_nil. constructor.
  - destruct k; simpl; constructor; [apply IH|].
    rewrite Forall_forall in *. intros y Hy. apply Hx.
    apply (In_firstn k). exact Hy.
Qed.

Lemma scan_entries_scored (tk : bool) (enc : string -> option (list Z))
      (root : string) (walk : list Entry) :
  Forall scored (scan_entries tk enc root walk).
Proof.
  apply Forall_forall. intros fi Hfi.
  apply In_scan_entries in Hfi. destruct Hfi as (e & _ & He).
  apply scan_entry_Some in He.
  destruct He as (_ & _ & _ & _ & text & toks & mtime & _ & _ & _ & _ & _ & ->).
  unfold scored, record_of, set_relevance_score. cbn [relevance_score].
  apply score_in_values.
Qed.

(** C6: the selected files are in descending order of score (the score of
    a file is at most the score of every file before it), and the files tied at a score are
    in the order of the walk: the candidate list holds them in that order, and
    the selection holds the first of them. *)
Theorem C6_selected_files_order (tk : bool) (enc : string -> option (list Z))
        (root : string) (tree : Node) (max_tokens : Z) :
  let walked := scan_entries tk enc root (rglob tree) in
  let r := scan_codebase tk enc root tree max_tokens in
  StronglySorted not_below (files r) /\
  forall x : FileInfo,
    In x walked ->
    filter (tied (relevance_score x)) (sort_by_relevance walked) =
    filter (tied (relevance_score x)) walked /\
    exists rest : list FileInfo,
      filter (tied (relevance_score x)) walked =
      (filter (tied (relevance_score x)) (files r) ++ rest)%list.
Proof.
  intros walked r.
  pose proof (scan_entries_scored tk enc root (rglob tree)) as Hsc.
  fold walked in Hsc.
  destruct (scan_codebase_prefix tk enc root tree max_tokens) as (k & Hk).
  fold r in Hk. unfold candidates in Hk. fold walked in Hk.
  split.
  - rewrite Hk. apply StronglySorted_firstn.
    apply sort_by_relevance_sorted. exact Hsc.
  - intros x Hx.
    assert (Hs : In (relevance_score x) score_values).
    { rewrite Forall_forall in Hsc. apply Hsc. exact Hx. }
    pose proof (filter_tied_sort (relevance_score x) walked Hs Hsc) as Hst.
    split; [exact Hst|].
    exists (filter (tied (relevance_score x)) (skipn k (sort_by_relevance walked))).
    rewrite Hk, <- filter_app, firstn_skipn. symmetry. exact Hst.
Qed.

(** ** The scenario of three files *)

(** The project of the scenario: [src/app.py], [tests/test_app.py] and
    [README.md], with the given contents and modification times. *)
Definition scenario_children (app tests readme : string) (m1 m2 m3 : Z) : list Node :=
  [ Dir "src" [ File "app.py" (Some app) (Some m1) ];
    Dir "tests" [ File "test_app.py" (Some tests) (Some m2) ];
    File "README.md" (Some readme) (Some m3) ].

(** A text of [n] characters. *)
Fixpoint filler (n : nat) : string :=
  match n with
  | O => EmptyString
  | S n' => String "x" (filler n')
  end.

(** With the estimator of four characters per token, the three files count
    800, 800 and 200 tokens. *)
Definition scenario_tree : Node :=
  Dir "proj" (scenario_children (filler 3200) (filler 3200) (filler 800) 0 0 0).

Lemma Permutation_three {A : Type} (a b c : A) (l : list A) :
  Permutation [a; b; c] l ->
  l = [a; b; c] \/ l = [a; c; b] \/ l = [b; a; c] \/
  l = [b; c; a] \/ l = [c; a; b] \/ l = [c; b; a].
Proof.
  intros H.
  destruct (Permutation_vs_cons_inv (Permutation_sym H)) as (l1 & l2 & ->).
  apply Permutation_cons_app_inv in H.
  apply Permutation_length_2_inv in H.
  destruct l1 as [|x [|y [|z l1]]]; simpl in H;
    destruct H as [H|H]; inversion H; subst; simpl; tauto.
Qed.

Lemma scan_entry_directory (tk : bool) (enc : string -> option (list Z))
      (root rel : string) (data : option string) (mtime : option Z) :
  scan_entry tk enc root (mkEntry rel true data mtime) = None.
Proof. reflexivity. Qed.

(** C4, as the specification states it, fails on the scenario: the scan
    counts three files, ranks [src/app.py] first, then [README.md], then
    [tests/test_app.py], and it neither selects exactly one file for 800
    tokens nor shows the score 1.56 for the first. *)
Lemma C4_scenario_counterexample :
  let r := scan_codebase false (fun _ => None) "/proj" scenario_tree 1000 in
  scanned_files r = 3 /\
  map (fun fi => (relative_path fi, tokens fi))
      (candidates false (fun _ => None) "/proj" scenario_tree) =
    [ ("src/app.py", 800); ("README.md", 200); ("tests/test_app.py", 800) ] /\
  ~ (total_files r = 1 /\ total_tokens r = 800) /\
  option_map (fun fi => PyFormat.float2 (relevance_score fi)) (hd_error (files r))
    <> Some "1.56".
Proof.
  vm_compute. repeat split.
  - intros [H _]. discriminate H.
  - intros H. discriminate H.
Qed.

(** C4 (amended): whatever the order in which the directory lists its three
    entries and whatever the tokenizer, when the files count 800, 800 and 200
    tokens the candidates are ranked [src/app.py] (shown as 2.34: language
    1.2, directory 1.3, entry-point name 1.5), [README.md] (1.00),
    [tests/test_app.py] (0.59); with a budget of 1000 the first two are
    selected, for 1000 tokens, out of 3 scanned. *)
Theorem C4_scenario_amended (tk : bool) (enc : string -> option (list Z))
        (root nm app tests readme : string) (m1 m2 m3 : Z) (children : list Node) :
  Permutation (scenario_children app tests readme m1 m2 m3) children ->
  PyStr.truthy (PyStr.strip app) = true ->
  PyStr.truthy (PyStr.strip tests) = true ->
  PyStr.truthy (PyStr.strip readme) = true ->
  count_tokens tk enc app = Some 800 ->
  count_tokens tk enc tests = Some 800 ->
  count_tokens tk enc readme = Some 200 ->
  let r := scan_codebase tk enc root (Dir nm children) 1000 in
  map (fun fi => (relative_path fi, PyFormat.float2 (relevance_score fi)))
      (candidates tk enc root (Dir nm children)) =
    [ ("src/app.py", "2.34"); ("README.md", "1.00"); ("tests/test_app.py", "0.59") ] /\
  map relative_path (files r) = [ "src/app.py"; "README.md" ] /\
  total_files r = 2 /\
  total_tokens r = 1000 /\
  scanned_files r = 3.
Proof.
  intros Hperm Sa St Sr Ca Ct Cr.
  pose (ea := mkEntry "src/app.py" false (Some app) (Some m1)).
  pose (et := mkEntry "tests/test_app.py" false (Some tests) (Some m2)).
  pose (er := mkEntry "README.md" false (Some readme) (Some m3)).
  assert (Ha : scan_entry tk enc root ea = Some (record_of root ea app 800 m1)).
  { apply scan_entry_Some. cbn [ea e_rel e_is_dir e_data e_mtime].
    do 4 (split; [reflexivity|]). exists app, 800, m1.
    repeat split; (assumption || lia). }
  assert (Ht : scan_entry tk enc root et = Some (record_of root et tests 800 m2)).
  { apply scan_entry_Some. cbn [et e_rel e_is_dir e_data e_mtime].
    do 4 (split; [reflexivity|]). exists tests, 800, m2.
    repeat split; (assumption || lia). }
  assert (Hr : scan_entry tk enc root er = Some (record_of root er readme 200 m3)).
  { apply scan_entry_Some. cbn [er e_rel e_is_dir e_data e_mtime].
    do 4 (split; [reflexivity|]). exists readme, 200, m3.
    repeat split; (assumption || lia). }
  unfold candidates, scan_codebase.
  apply Permutation_three in Hperm.
  destruct Hperm as [->|[->|[->|[->|[->| ->]]]]];
    cbv [rglob walk_dir map flat_map entry_of node_name List.app String.append];
    fold ea; fold et; fold er;
    cbn [scan_entries];
    rewrite ?scan_entry_directory, ?Ha, ?Ht, ?Hr;
    vm_compute; repeat split.
Qed.

Lemma C4_scenario_amended_witness :
  let r := scan_codebase false (fun _ => None) "/proj" scenario_tree 1000 in
  map (fun fi => (relative_path fi, PyFormat.float2 (relevance_score fi)))
      (candidates false (fun _ => None) "/proj" scenario_tree) =
    [ ("src/app.py", "2.34"); ("README.md", "1.00"); ("tests/test_app.py", "0.59") ] /\
  map relative_path (files r) = [ "src/app.py"; "README.md" ] /\
  total_files r = 2 /\
  total_tokens r = 1000 /\
  scanned_files r = 3.
Proof.
  apply (C4_scenario_amended false (fun _ => None) "/proj" "proj"
           (filler 3200) (filler 3200) (filler 800) 0 0 0
           (scenario_children (filler 3200) (filler 3200) (filler 800) 0 0 0));
    solve [apply Permutation_refl | vm_compute; reflexivity].
Defined.

(** ** A missing project path *)

(** C8: when [project_path] does not exist, [load_codebase] answers with the
    error text, the three globals are what they were, and the only effect is
    the test of the path: no scan is run. *)
Theorem C8_missing_path_is_atomic (tk : bool) (enc : string -> option (list Z))
        (filesystem : string -> option Found)
        (other_tools : ServerState -> string -> Response)
        (st : ServerState) (p : string) (max_tokens : option Budget) :
  filesystem p = None ->
  let o := handle_tool_call tk enc filesystem other_tools st "load_codebase"
                            (mkArguments (Some p) max_tokens) in
  out_state o = st /\
  out_response o = RpcResult (wrap_result (missing_path_message p)) /\
  out_effects o = [PathExists p] /\
  forall (q : string) (m : Budget), ~ In (ScanCodebase q m) (out_effects o).
Proof.
  intros Hmissing o. subst o. unfold handle_tool_call.
  cbn [String.eqb Ascii.eqb Bool.eqb arg_project_path arg_max_tokens].
  rewrite Hmissing. cbn [out_state out_response out_effects].
  repeat split.
  intros q m [H|[]]. discriminate H.
Qed.

(** A session loaded earlier. *)
Definition demo_session : ServerState :=
  let data := scan_codebase false (fun _ => None) "/proj" demo_tree 900000 in
  mkServerState (Some (create_codebase_context data)) (Some "/proj") (Some data).

Definition demo_filesystem (p : string) : option Found :=
  if String.eqb p "/proj" then Some (Walked "/proj" demo_tree) else None.

Lemma C8_missing_path_is_atomic_witness :
  demo_filesystem "/nowhere" = None /\
  let o := handle_tool_call false (fun _ => None) demo_filesystem
                            (fun _ _ => RpcError "unused") demo_session
                            "load_codebase"
                            (mkArguments (Some "/nowhere") (Some (BudgetInt 1000))) in
  out_state o = demo_session /\
  out_response o = RpcResult (wrap_result (missing_path_message "/nowhere")) /\
  out_effects o = [PathExists "/nowhere"] /\
  forall (q : string) (m : Budget), ~ In (ScanCodebase q m) (out_effects o).
Proof.
  split; [reflexivity|].
  apply (C8_missing_path_is_atomic false (fun _ => None) demo_filesystem
           (fun _ _ => RpcError "unused") demo_session "/nowhere" (Some (BudgetInt 1000))).
  reflexivity.
Defined.

(** ** The shape of the serialized document *)

Lemma append_empty_r (s : string) : (s ++ "")%string = s.
Proof. induction s as [|c s IH]; simpl; [reflexivity | rewrite IH; reflexivity]. Qed.

Lemma fold_left_append {A : Type} (f : A -> string) (l : list A) :
  forall context : string,
    fold_left (fun context x => context ++ f x) l context =
    context ++ concat_all (map f l).
Proof.
  induction l as [|x l IH]; intros context; simpl.
  - rewrite append_empty_r. reflexivity.
  - rewrite IH, append_assoc. reflexivity.
Qed.

Lemma fold_left_append2 {A : Type} (f g : A -> string) (l : list A) :
  forall context : string,
    fold_left (fun context x => (context ++ f x) ++ g x) l context =
    context ++ concat_all (map (fun x => f x ++ g x) l).
Proof.
  induction l as [|x l IH]; intros context; simpl.
  - rewrite append_empty_r. reflexivity.
  - rewrite IH, !append_assoc. reflexivity.
Qed.

(** The texts of the document, written out. *)

(** The line of the file tree for a file: its relative path, its language,
    its tokens and its score with two decimals. *)
Definition tree_line_text (fi : FileInfo) : string :=
  "- " ++ relative_path fi ++ " (" ++ language fi ++ ", " ++
  PyFormat.int (tokens fi) ++ " tokens, score: " ++
  PyFormat.float2 (relevance_score fi) ++ ")" ++ nl.

(** The block of a file in the contents: the heading with its relative path
    and its language, then its content between the fences. *)
Definition content_text (fi : FileInfo) : string :=
  ("### üìÅ " ++ relative_path fi ++ " (" ++ language fi ++ ")" ++ nl) ++
  ("```" ++ language fi ++ nl ++ content fi ++ nl ++ "```" ++ nl ++ nl).

Lemma nth_error_firstn_lt {A : Type} (l : list A) (n i : nat) :
  (i < n)%nat -> nth_error (firstn n l) i = nth_error l i.
Proof.
  revert n i. induction l as [|x l IH]; intros n i Hi.
  - rewrite firstn_nil. reflexivity.
  - destruct n; [lia|]. destruct i; simpl; [reflexivity|]. apply IH. lia.
Qed.

(** C9: the document is the header, the heading of the file tree, one line
    for each of the first 20 selected files, one summary line exactly when
    more than 20 files are selected, the heading of the contents, one block
    (heading and content) for each selected file in the same order, and the
    instructions at the very end. The line of a file in the tree names its
    relative path, language, tokens and score; its block in the contents
    names its relative path and language and holds its content; the file at
    position [i] has the line at position [i] of the tree, when [i < 20], and
    the block at position [i] of the contents, which comes after the tree. *)
Theorem C9_serialization_shape (codebase_data : ScanResult) :
  let fs := files codebase_data in
  exists tree_lines summary blocks : list string,
    create_codebase_context codebase_data =
      context_header codebase_data ++
      ("### File Tree:" ++ nl) ++
      concat_all tree_lines ++
      concat_all summary ++
      (nl ++ "## COMPLETE FILE CONTENTS:" ++ nl ++ nl) ++
      concat_all blocks ++
      (nl ++
       "## ANALYSIS INSTRUCTIONS:" ++ nl ++
       "You now have the complete codebase loaded in your context with intelligent file prioritization." ++ nl ++
       "When answering questions:" ++ nl ++
       "1. Reference specific files and line numbers when possible" ++ nl ++
       "2. Consider the overall architecture and relationships between files" ++ nl ++
       "3. Provide concrete, actionable insights" ++ nl ++
       "4. Focus on the most relevant files based on the user's query" ++ nl ++
       "5. Use your understanding of the complete codebase context" ++ nl) /\
    tree_lines =
      map (fun fi =>
             "- " ++ relative_path fi ++ " (" ++ language fi ++ ", " ++
             PyFormat.int (tokens fi) ++ " tokens, score: " ++
             PyFormat.float2 (relevance_score fi) ++ ")" ++ nl)
          (firstn 20 fs) /\
    (List.length tree_lines <= 20)%nat /\
    List.length tree_lines = Nat.min 20 (List.length fs) /\
    (List.length summary <= 1)%nat /\
    (List.length summary = 1%nat <-> (20 < List.length fs)%nat) /\
    (forall line, In line summary ->
                  line = "... and " ++ PyFormat.int (Z.of_nat (List.length fs) - 20) ++
                         " more files" ++ nl) /\
    blocks =
      map (fun fi =>
             ("### üìÅ " ++ relative_path fi ++ " (" ++ language fi ++ ")" ++ nl) ++
             ("```" ++ language fi ++ nl ++ content fi ++ nl ++ "```" ++ nl ++ nl))
          fs /\
    List.length blocks = List.length fs /\
    (forall (i : nat) (fi : FileInfo),
        nth_error fs i = Some fi ->
        nth_error blocks i = Some (content_text fi) /\
        ((i < 20)%nat -> nth_error tree_lines i = Some (tree_line_text fi)) /\
        ((20 <= i)%nat -> nth_error tree_lines i = None)).
Proof.
  intros fs.
  exists (map tree_line (firstn 20 fs)),
         (if (20 <? List.length fs)%nat
          then [more_files_line (Z.of_nat (List.length fs) - 20)] else []),
         (map (fun fi => content_heading fi ++ content_block fi) fs).
  split; [|split; [reflexivity|]].
  - unfold create_codebase_context. fold fs.
    rewrite fold_left_append2.
    destruct (20 <? List.length fs)%nat;
      rewrite fold_left_append; cbn [concat_all fold_right];
      rewrite ?append_empty_r, !append_assoc; reflexivity.
  - rewrite !length_map, length_firstn.
    assert (Hnth : forall (i : nat) (fi : FileInfo),
               nth_error fs i = Some fi ->
               nth_error (map (fun fi => content_heading fi ++ content_block fi) fs) i =
                 Some (content_text fi) /\
               ((i < 20)%nat ->
                nth_error (map tree_line (firstn 20 fs)) i = Some (tree_line_text fi)) /\
               ((20 <= i)%nat -> nth_error (map tree_line (firstn 20 fs)) i = None)).
    { intros i fi Hi. split; [|split].
      - rewrite nth_error_map, Hi. reflexivity.
      - intros Hlt. rewrite nth_error_map, nth_error_firstn_lt, Hi by exact Hlt.
        reflexivity.
      - intros Hge. apply nth_error_None. rewrite length_map, length_firstn. lia. }
    destruct (20 <? List.length fs)%nat eqn:Hmore.
    + apply Nat.ltb_lt in Hmore. cbn [List.length In].
      split; [lia|]. split; [lia|]. split; [lia|]. split; [split; lia|].
      split; [intros line [<-|[]]; reflexivity|].
      split; [reflexivity|]. split; [reflexivity | exact Hnth].
    + apply Nat.ltb_ge in Hmore. cbn [List.length In].
      split; [lia|]. split; [lia|]. split; [lia|]. split; [split; lia|].
      split; [intros line []|].
      split; [reflexivity|]. split; [reflexivity | exact Hnth].
Qed.

(** * Further properties of the scan *)

Lemma scan_entries_app (tk : bool) (enc : string -> option (list Z)) (root : string)
      (l1 l2 : list Entry) :
  scan_entries tk enc root (l1 ++ l2) =
  (scan_entries tk enc root l1 ++ scan_entries tk enc root l2)%list.
Proof.
  induction l1 as [|e l1 IH]; simpl; [reflexivity|].
  destruct (scan_entry tk enc root e); simpl; rewrite IH; reflexivity.
Qed.

Lemma length_scan_entries (tk : bool) (enc : string -> option (list Z)) (root : string)
      (walk : list Entry) :
  (List.length (scan_entries tk enc root walk) <= List.length walk)%nat.
Proof.
  induction walk as [|e walk IH]; simpl; [lia|].
  destruct (scan_entry tk enc root e); simpl; lia.
Qed.

(** No record has a negative number of tokens. *)
Definition countable (fi : FileInfo) : Prop := 0 <= tokens fi.

Lemma scan_entries_countable (tk : bool) (enc : string -> option (list Z))
      (root : string) (walk : list Entry) :
  Forall countable (scan_entries tk enc root walk).
Proof.
  apply Forall_forall. intros fi Hfi.
  apply In_scan_entries in Hfi. destruct Hfi as (e & _ & He).
  apply scan_entry_Some in He.
  destruct He as (_ & _ & _ & _ & text & toks & mtime & _ & _ & Hc & _ & _ & ->).
  unfold countable, record_of, set_relevance_score. cbn [tokens].
  apply (count_tokens_nonneg tk enc text). exact Hc.
Qed.

Lemma candidates_countable (tk : bool) (enc : string -> option (list Z))
      (root : string) (tree : Node) :
  Forall countable (candidates tk enc root tree).
Proof. apply Forall_sort_by_relevance. apply scan_entries_countable. Qed.

Lemma sum_tokens_nonneg (l : list FileInfo) :
  Forall countable l -> 0 <= sum_tokens l.
Proof.
  induction 1 as [|x l Hx _ IH]; simpl; [lia|]. unfold countable in Hx. lia.
Qed.

Lemma Forall_firstn {A : Type} (P : A -> Prop) (k : nat) (l : list A) :
  Forall P l -> Forall P (firstn k l).
Proof.
  rewrite !Forall_forall. intros H x Hx. apply H. apply (In_firstn k). exact Hx.
Qed.

Lemma Forall_skipn {A : Type} (P : A -> Prop) (k : nat) (l : list A) :
  Forall P l -> Forall P (skipn k l).
Proof.
  rewrite !Forall_forall. intros H x Hx. apply H.
  rewrite <- (firstn_skipn k l). apply in_or_app. right. exact Hx.
Qed.

(** The tokens of a prefix and of the record after it are part of the total. *)
Lemma sum_tokens_upto (l : list FileInfo) (k : nat) (c : FileInfo) :
  Forall countable l -> nth_error l k = Some c ->
  sum_tokens (firstn k l) + tokens c <= sum_tokens l.
Proof.
  intros Hl Hk.
  destruct (nth_error_split l k Hk) as (l1 & l2 & -> & <-).
  rewrite firstn_app, firstn_all, Nat.sub_diag, firstn_O, app_nil_r.
  rewrite sum_tokens_app. simpl.
  apply Forall_app in Hl. destruct Hl as [_ Hl]. inversion Hl; subst.
  pose proof (sum_tokens_nonneg l2 ltac:(assumption)). lia.
Qed.

(** X1: a larger budget keeps what a smaller one selected and may only add
    files after it; the number of tokens used does not go down. *)
Theorem X1_budget_monotone (tk : bool) (enc : string -> option (list Z))
        (root : string) (tree : Node) (m1 m2 : Z) :
  m1 <= m2 ->
  let r1 := scan_codebase tk enc root tree m1 in
  let r2 := scan_codebase tk enc root tree m2 in
  (exists rest : list FileInfo, files r2 = (files r1 ++ rest)%list) /\
  total_files r1 <= total_files r2 /\
  total_tokens r1 <= total_tokens r2.
Proof.
  intros Hm r1 r2.
  assert (Hfiles : exists rest, files r2 = (files r1 ++ rest)%list /\ Forall countable rest).
  { subst r1 r2. rewrite !scan_codebase_files.
    pose proof (candidates_countable tk enc root tree) as Hc.
    generalize dependent (candidates tk enc root tree). intros l Hl.
    generalize (@nil FileInfo) as sel. generalize 0 as used.
    induction l as [|x l IH]; intros used sel; simpl.
    - exists []. rewrite app_nil_r. split; [reflexivity | constructor].
    - inversion Hl; subst.
      destruct (used + tokens x <=? m1) eqn:Hfit1.
      + assert (Hfit2 : (used + tokens x <=? m2) = true).
        { apply Z.leb_le. apply Z.leb_le in Hfit1. lia. }
        rewrite Hfit2. apply IH. assumption.
      + destruct (trim_loop_prefix (x :: l) m2 sel used) as (k & Hk & _).
        simpl in Hk. rewrite Hk. simpl.
        exists (firstn k (x :: l)). split; [reflexivity|].
        apply Forall_firstn. exact Hl. }
  destruct Hfiles as (rest & Hrest & Hcount).
  split; [exists rest; exact Hrest|].
  assert (Ht1 : total_tokens r1 = sum_tokens (files r1)).
  { subst r1. rewrite scan_codebase_total_tokens, scan_codebase_files.
    apply trim_loop_total. reflexivity. }
  assert (Ht2 : total_tokens r2 = sum_tokens (files r2)).
  { subst r2. rewrite scan_codebase_total_tokens, scan_codebase_files.
    apply trim_loop_total. reflexivity. }
  assert (Hf1 : total_files r1 = Z.of_nat (List.length (files r1))).
  { subst r1. unfold scan_codebase. destruct (trim_loop _ m1 [] 0). reflexivity. }
  assert (Hf2 : total_files r2 = Z.of_nat (List.length (files r2))).
  { subst r2. unfold scan_codebase. destruct (trim_loop _ m2 [] 0). reflexivity. }
  rewrite Ht1, Ht2, Hf1, Hf2, Hrest, sum_tokens_app, length_app.
  pose proof (sum_tokens_nonneg rest Hcount). lia.
Qed.

Lemma X1_budget_monotone_witness :
  5 <= 100 /\
  let r1 := scan_codebase false (fun _ => None) "/proj" demo_tree 5 in
  let r2 := scan_codebase false (fun _ => None) "/proj" demo_tree 100 in
  (exists rest : list FileInfo, files r2 = (files r1 ++ rest)%list) /\
  total_files r1 <= total_files r2 /\
  total_tokens r1 <= total_tokens r2.
Proof.
  split; [lia|].
  apply (X1_budget_monotone false (fun _ => None) "/proj" demo_tree 5 100). lia.
Defined.

(** X2: the cut is as late as it can be. When a candidate is left out, the
    first one left out is a file that does not fit in what remains of the
    budget; the files before it are all selected. *)
Theorem X2_first_file_left_out_does_not_fit (tk : bool) (enc : string -> option (list Z))
        (root : string) (tree : Node) (max_tokens : Z) (c : FileInfo) :
  let r := scan_codebase tk enc root tree max_tokens in
  nth_error (candidates tk enc root tree) (List.length (files r)) = Some c ->
  max_tokens < total_tokens r + tokens c /\
  files r = firstn (List.length (files r)) (candidates tk enc root tree).
Proof.
  intros r. subst r.
  rewrite scan_codebase_total_tokens, scan_codebase_files.
  destruct (trim_loop_prefix (candidates tk enc root tree) max_tokens [] 0)
    as (k & Heq & Hk & Hrej).
  rewrite Heq. cbn [fst snd List.app].
  rewrite length_firstn, Nat.min_l by exact Hk.
  intros Hc. split; [|reflexivity].
  specialize (Hrej c Hc). lia.
Qed.

Lemma X2_first_file_left_out_does_not_fit_witness :
  let r := scan_codebase false (fun _ => None) "/proj" demo_tree 5 in
  exists c : FileInfo,
    nth_error (candidates false (fun _ => None) "/proj" demo_tree)
              (List.length (files r)) = Some c /\
    relative_path c = "README.md" /\
    5 < total_tokens r + tokens c.
Proof.
  intros r. eexists. split; [vm_compute; reflexivity|].
  split; [reflexivity|].
  apply (X2_first_file_left_out_does_not_fit false (fun _ => None) "/proj"
           demo_tree 5).
  vm_compute. reflexivity.
Defined.

(** X3: a budget that covers the tokens of all candidates selects all of
    them, in their ranking order, and the result counts as many files loaded
    as scanned. *)
Theorem X3_ample_budget_selects_everything (tk : bool) (enc : string -> option (list Z))
        (root : string) (tree : Node) (max_tokens : Z) :
  sum_tokens (candidates tk enc root tree) <= max_tokens ->
  let r := scan_codebase tk enc root tree max_tokens in
  files r = candidates tk enc root tree /\
  total_files r = scanned_files r /\
  total_tokens r = sum_tokens (candidates tk enc root tree).
Proof.
  intros Hsum r.
  pose proof (candidates_countable tk enc root tree) as Hc.
  assert (Hfiles : files r = candidates tk enc root tree).
  { subst r. rewrite scan_codebase_files.
    destruct (trim_loop_prefix (candidates tk enc root tree) max_tokens [] 0)
      as (k & Heq & Hk & Hrej).
    rewrite Heq. cbn [fst List.app].
    destruct (nth_error (candidates tk enc root tree) k) as [c|] eqn:Hnth.
    - exfalso. specialize (Hrej c eq_refl).
      pose proof (sum_tokens_upto _ k c Hc Hnth). lia.
    - apply nth_error_None in Hnth. apply firstn_all2. exact Hnth. }
  split; [exact Hfiles|]. split.
  - subst r. rewrite scan_codebase_scanned_files, <- Hfiles.
    unfold scan_codebase. destruct (trim_loop _ max_tokens [] 0). reflexivity.
  - rewrite <- Hfiles. subst r.
    rewrite scan_codebase_total_tokens, scan_codebase_files.
    apply trim_loop_total. reflexivity.
Qed.

Lemma X3_ample_budget_selects_everything_witness :
  sum_tokens (candidates false (fun _ => None) "/proj" demo_tree) <= 900000 /\
  let r := scan_codebase false (fun _ => None) "/proj" demo_tree 900000 in
  files r = candidates false (fun _ => None) "/proj" demo_tree /\
  total_files r = scanned_files r /\
  total_tokens r = sum_tokens (candidates false (fun _ => None) "/proj" demo_tree).
Proof.
  split; [vm_compute; discriminate|].
  apply (X3_ample_budget_selects_everything false (fun _ => None) "/proj"
           demo_tree 900000).
  vm_compute. discriminate.
Defined.

(** X4: with a negative budget nothing is selected and 0 tokens are used,
    so [total_tokens] is above the budget: the budget bound needs a budget
    that is not negative. *)
Theorem X4_negative_budget_selects_nothing (tk : bool) (enc : string -> option (list Z))
        (root : string) (tree : Node) (max_tokens : Z) :
  max_tokens < 0 ->
  let r := scan_codebase tk enc root tree max_tokens in
  files r = [] /\ total_files r = 0 /\ total_tokens r = 0 /\
  max_tokens < total_tokens r /\
  scanned_files r = Z.of_nat (List.length (candidates tk enc root tree)).
Proof.
  intros Hneg r. subst r.
  pose proof (candidates_countable tk enc root tree) as Hc.
  unfold scan_codebase. fold (candidates tk enc root tree).
  destruct (candidates tk enc root tree) as [|x l]; simpl.
  - repeat split; lia.
  - inversion Hc as [|? ? Hx _]; subst. unfold countable in Hx.
    destruct (tokens x <=? max_tokens) eqn:Hfit.
    + apply Z.leb_le in Hfit. lia.
    + simpl. repeat split; lia.
Qed.

Lemma X4_negative_budget_selects_nothing_witness :
  -1 < 0 /\
  let r := scan_codebase false (fun _ => None) "/proj" demo_tree (-1) in
  files r = [] /\ total_files r = 0 /\ total_tokens r = 0 /\
  -1 < total_tokens r /\
  scanned_files r = Z.of_nat (List.length (candidates false (fun _ => None) "/proj" demo_tree)).
Proof.
  split; [lia|].
  apply (X4_negative_budget_selects_nothing false (fun _ => None) "/proj" demo_tree (-1)).
  lia.
Defined.

Lemma insert_by_score_Permutation (fi : FileInfo) (l : list FileInfo) :
  Permutation (fi :: l) (insert_by_score fi l).
Proof.
  induction l as [|x l IH]; simpl; [apply Permutation_refl|].
  destruct (relevance_score fi <? relevance_score x)%float.
  - apply (perm_trans (perm_swap x fi l)). apply perm_skip. exact IH.
  - apply Permutation_refl.
Qed.

Lemma sort_by_relevance_Permutation (l : list FileInfo) :
  Permutation l (sort_by_relevance l).
Proof.
  induction l as [|x l IH]; simpl; [apply perm_nil|].
  apply (perm_trans (perm_skip x IH)). apply insert_by_score_Permutation.
Qed.

(** X5: ranking neither drops nor repeats a record: the candidates are a
    rearrangement of the records of the walk. The result counts its own
    files, never more than were scanned, and no more files are scanned than
    the walk yields paths; [project_path] is the resolved root. *)
Theorem X5_ranking_keeps_every_record (tk : bool) (enc : string -> option (list Z))
        (root : string) (tree : Node) (max_tokens : Z) :
  let walked := scan_entries tk enc root (rglob tree) in
  let r := scan_codebase tk enc root tree max_tokens in
  Permutation walked (candidates tk enc root tree) /\
  total_files r = Z.of_nat (List.length (files r)) /\
  scanned_files r = Z.of_nat (List.length walked) /\
  0 <= total_files r <= scanned_files r /\
  scanned_files r <= Z.of_nat (List.length (rglob tree)) /\
  project_path r = root.
Proof.
  intros walked r.
  assert (Hfiles : total_files r = Z.of_nat (List.length (files r)) /\ project_path r = root).
  { subst r. unfold scan_codebase. destruct (trim_loop _ max_tokens [] 0). split; reflexivity. }
  destruct Hfiles as [Hfiles Hroot].
  assert (Hscanned : scanned_files r = Z.of_nat (List.length walked)).
  { subst r. rewrite scan_codebase_scanned_files. unfold candidates.
    rewrite length_sort_by_relevance. reflexivity. }
  destruct (scan_codebase_prefix tk enc root tree max_tokens) as (k & Hk).
  fold r in Hk.
  pose proof (length_scan_entries tk enc root (rglob tree)) as Hwalk. fold walked in Hwalk.
  assert (Hlen : (List.length (files r) <= List.length walked)%nat).
  { rewrite Hk, length_firstn. unfold candidates.
    rewrite length_sort_by_relevance. fold walked. lia. }
  split; [apply sort_by_relevance_Permutation|].
  rewrite Hfiles, Hscanned. repeat split; try lia. exact Hroot.
Qed.

(** X6: every selected record is the record of a regular file of the tree:
    its content is the text read from that file, its path is the root joined
    with its relative path, its size is the length of its content, its tokens
    are the count of its content, and its score is the score computed from
    the record itself. *)
Theorem X6_selected_record_is_consistent (tk : bool) (enc : string -> option (list Z))
        (root : string) (tree : Node) (max_tokens : Z) (fi : FileInfo) :
  In fi (files (scan_codebase tk enc root tree max_tokens)) ->
  (exists e : Entry,
      In e (rglob tree) /\ e_is_dir e = false /\
      e_rel e = relative_path fi /\
      e_data e = Some (content fi) /\
      e_mtime e = Some (modified fi)) /\
  path fi = PyPath.joinpath root (relative_path fi) /\
  size fi = PyStr.len (content fi) /\
  count_tokens tk enc (content fi) = Some (tokens fi) /\
  0 <= tokens fi /\
  relevance_score fi = calculate_relevance_score fi root.
Proof.
  intros Hin.
  destruct (selected_from_walk tk enc root tree max_tokens fi Hin) as (e & He & Hfi).
  apply scan_entry_Some in Hfi.
  destruct Hfi as (Hdir & _ & _ & _ & text & toks & mtime & Hd & _ & Hc & _ & Hm & ->).
  unfold record_of, set_relevance_score.
  cbn [relative_path path content tokens size modified relevance_score].
  split; [exists e; repeat split; assumption|].
  repeat split.
  - exact Hc.
  - apply (count_tokens_nonneg tk enc text). exact Hc.
Qed.

Lemma X6_selected_record_is_consistent_witness :
  exists fi : FileInfo,
    In fi (files (scan_codebase false (fun _ => None) "/proj" demo_tree 100)) /\
    relative_path fi = "README.md" /\
    path fi = PyPath.joinpath "/proj" (relative_path fi) /\
    size fi = PyStr.len (content fi) /\
    count_tokens false (fun _ => None) (content fi) = Some (tokens fi) /\
    0 <= tokens fi /\
    relevance_score fi = calculate_relevance_score fi "/proj".
Proof.
  eexists. split; [vm_compute; right; left; reflexivity|].
  split; [reflexivity|].
  apply (X6_selected_record_is_consistent false (fun _ => None) "/proj" demo_tree 100).
  vm_compute. right. left. reflexivity.
Defined.

(** ** Languages and extensions *)

Lemma dict_get_found {V : Type} (d : list (string * V)) (k : string) (v : V) :
  dict_get d k v <> v -> In k (map fst d).
Proof.
  induction d as [|[k' v'] d IH]; simpl.
  - intros H. exfalso. apply H. reflexivity.
  - destruct (String.eqb_spec k k') as [->|Hne].
    + intros _. left. reflexivity.
    + intros H. right. apply IH. exact H.
Qed.

Lemma mem_In (x : string) (xs : list string) : PyStr.mem x xs = true <-> In x xs.
Proof.
  unfold PyStr.mem. rewrite existsb_exists. split.
  - intros (y & Hy & Heq). apply String.eqb_eq in Heq. subst. exact Hy.
  - intros H. exists x. split; [exact H | apply String.eqb_refl].
Qed.

(** X7: the language table and the extension allow-list agree. A path gets
    a language other than [unknown] exactly when its extension, in lower
    case, is one of [CODE_EXTENSIONS]. *)
Theorem X7_language_known_iff_extension_allowed (file_path : string) :
  get_language file_path <> "unknown" <->
  PyStr.mem (PyStr.lower (PyPath.suffix file_path)) CODE_EXTENSIONS = true.
Proof.
  unfold get_language. set (ext := PyStr.lower (PyPath.suffix file_path)).
  split.
  - intros H. apply dict_get_found in H.
    assert (Hall : forallb (fun k => PyStr.mem k CODE_EXTENSIONS) (map fst language_map) = true)
      by (vm_compute; reflexivity).
    rewrite forallb_forall in Hall. apply Hall. exact H.
  - intros H. apply mem_In in H.
    assert (Hall : forallb (fun k => negb (String.eqb (dict_get language_map k "unknown") "unknown"))
                           CODE_EXTENSIONS = true)
      by (vm_compute; reflexivity).
    rewrite forallb_forall in Hall. specialize (Hall ext H).
    apply negb_true_iff in Hall. apply String.eqb_neq in Hall. exact Hall.
Qed.

(** X8: no selected file is hidden or of unknown language: the final
    component of its relative path does not start with a dot, and its
    language is the one of its extension, never [unknown]. *)
Theorem X8_selected_file_is_visible_and_typed (tk : bool) (enc : string -> option (list Z))
        (root : string) (tree : Node) (max_tokens : Z) (fi : FileInfo) :
  In fi (files (scan_codebase tk enc root tree max_tokens)) ->
  PyStr.startswith (PyPath.name (relative_path fi)) "." = false /\
  language fi = get_language (relative_path fi) /\
  language fi = get_language (path fi) /\
  language fi <> "unknown".
Proof.
  intros Hin.
  destruct (selected_from_walk tk enc root tree max_tokens fi Hin) as (e & _ & Hfi).
  apply scan_entry_Some in Hfi.
  destruct Hfi as (_ & Hname & _ & Hext & text & toks & mtime & _ & _ & _ & _ & _ & ->).
  unfold record_of, set_relevance_score. cbn [relative_path path language].
  repeat split.
  - exact Hname.
  - symmetry. apply get_language_joinpath.
  - unfold get_language.
    assert (Hall : forallb (fun k => negb (String.eqb (dict_get language_map k "unknown") "unknown"))
                           CODE_EXTENSIONS = true)
      by (vm_compute; reflexivity).
    rewrite forallb_forall in Hall.
    specialize (Hall _ (proj1 (mem_In _ _) Hext)).
    apply negb_true_iff in Hall. apply String.eqb_neq in Hall. exact Hall.
Qed.

Lemma X8_selected_file_is_visible_and_typed_witness :
  exists fi : FileInfo,
    In fi (files (scan_codebase false (fun _ => None) "/proj" demo_tree 100)) /\
    relative_path fi = "src/main.py" /\
    PyStr.startswith (PyPath.name (relative_path fi)) "." = false /\
    language fi = get_language (relative_path fi) /\
    language fi = get_language (path fi) /\
    language fi <> "unknown".
Proof.
  eexists. split; [vm_compute; left; reflexivity|].
  split; [reflexivity|].
  apply (X8_selected_file_is_visible_and_typed false (fun _ => None) "/proj" demo_tree 100).
  vm_compute. left. reflexivity.
Defined.

(** ** Files that cannot be read *)

(** A file whose read or whose [stat] raises. *)
Definition unreadable (n : Node) : bool :=
  match n with
  | File _ (Some _) (Some _) => false
  | File _ _ _ => true
  | Dir _ _ => false
  end.

(** The tree without its unreadable files, at every depth. *)
Fixpoint without_unreadable (n : Node) : Node :=
  match n with
  | File _ _ _ => n
  | Dir nm children =>
      Dir nm (filter (fun c => negb (unreadable c)) (map without_unreadable children))
  end.

(** Induction on a tree, with the statement for every child of a directory. *)
Fixpoint Node_Forall_ind (P : Node -> Prop)
         (HF : forall nm data mtime, P (File nm data mtime))
         (HD : forall nm children, Forall P children -> P (Dir nm children))
         (n : Node) : P n :=
  match n with
  | File nm data mtime => HF nm data mtime
  | Dir nm children =>
      HD nm children
         ((fix all (l : list Node) : Forall P l :=
             match l with
             | [] => Forall_nil P
             | c :: l' => Forall_cons c (Node_Forall_ind P HF HD c) (all l')
             end) children)
  end.

Lemma node_name_without_unreadable (n : Node) :
  node_name (without_unreadable n) = node_name n.
Proof. destruct n; reflexivity. Qed.

Lemma unreadable_without_unreadable (n : Node) :
  unreadable (without_unreadable n) = unreadable n.
Proof. destruct n; reflexivity. Qed.

Lemma entry_of_without_unreadable (dir_rel : string) (n : Node) :
  entry_of dir_rel (without_unreadable n) = entry_of dir_rel n.
Proof. destruct n; reflexivity. Qed.

Lemma scan_entry_unreadable (tk : bool) (enc : string -> option (list Z))
      (root dir_rel : string) (n : Node) :
  unreadable n = true -> scan_entry tk enc root (entry_of dir_rel n) = None.
Proof.
  intros Hn. destruct (scan_entry tk enc root (entry_of dir_rel n)) as [fi|] eqn:He;
    [|reflexivity].
  apply scan_entry_Some in He.
  destruct He as (_ & _ & _ & _ & text & toks & mtime & Hd & _ & _ & _ & Hm & _).
  destruct n as [nm [d|] [m|]|nm cs]; simpl in *; discriminate.
Qed.

Lemma walk_dir_unreadable (dir_rel : string) (n : Node) :
  unreadable n = true -> walk_dir dir_rel n = [].
Proof. destruct n; [reflexivity | discriminate]. Qed.

Lemma scan_walk_without_unreadable (tk : bool) (enc : string -> option (list Z))
      (root : string) (n : Node) :
  forall dir_rel : string,
    scan_entries tk enc root (walk_dir dir_rel (without_unreadable n)) =
    scan_entries tk enc root (walk_dir dir_rel n).
Proof.
  induction n as [nm data mtime | nm children IH] using Node_Forall_ind;
    intros dir_rel; [reflexivity|].
  cbn [without_unreadable walk_dir]. rewrite !scan_entries_app. f_equal.
  - clear IH. induction children as [|c cs IHcs]; [reflexivity|].
    cbn [filter map]. rewrite unreadable_without_unreadable.
    destruct (unreadable c) eqn:Hc; cbn [negb map].
    + cbn [scan_entries]. rewrite (scan_entry_unreadable tk enc root dir_rel c Hc).
      exact IHcs.
    + cbn [scan_entries]. rewrite entry_of_without_unreadable.
      destruct (scan_entry tk enc root (entry_of dir_rel c)); rewrite IHcs; reflexivity.
  - induction IH as [|c cs Hc _ IHcs]; [reflexivity|].
    cbn [filter map flat_map]. rewrite unreadable_without_unreadable.
    destruct (unreadable c) eqn:Hu; cbn [negb map flat_map].
    + rewrite (walk_dir_unreadable _ c Hu). exact IHcs.
    + rewrite !scan_entries_app, node_name_without_unreadable, Hc, IHcs. reflexivity.
Qed.

(** X9: files that cannot be read do not change the scan. The result for a
    tree is the result for the same tree without its unreadable files,
    wherever they are: a failed read drops that file and nothing else. *)
Theorem X9_unreadable_files_change_nothing (tk : bool) (enc : string -> option (list Z))
        (root : string) (tree : Node) (max_tokens : Z) :
  scan_codebase tk enc root (without_unreadable tree) max_tokens =
  scan_codebase tk enc root tree max_tokens.
Proof.
  unfold scan_codebase, rglob.
  rewrite scan_walk_without_unreadable. reflexivity.
Qed.

(** ** Bounds and order of the scores *)

(** The outcomes of the size stage that can be reached. *)
Lemma size_stage_reached (toks : Z) (s : float) :
  In (size_stage toks s) [ (s * 1.1)%float; (s * 0.8)%float; s ].
Proof.
  unfold size_stage. rewrite !Z.gtb_ltb.
  destruct (toks <? 100) eqn:H1; [simpl; auto|].
  destruct (5000 <? toks) eqn:H2; [simpl; auto|].
  destruct (10000 <? toks) eqn:H3; [|simpl; auto].
  apply Z.ltb_lt in H3. apply Z.ltb_ge in H2. lia.
Qed.

Definition reached_scores : list float :=
  flat_map
    (fun s1 =>
       flat_map (fun s2 =>
                   flat_map filename_outcomes [ (s2 * 1.1)%float; (s2 * 0.8)%float; s2 ])
                (directory_outcomes s1))
    (language_outcomes 1.0%float).

Lemma score_reached (fi : FileInfo) (root : string) :
  In (calculate_relevance_score fi root) reached_scores.
Proof.
  unfold calculate_relevance_score, reached_scores.
  apply in_flat_map. eexists. split; [apply language_stage_outcome|].
  apply in_flat_map. eexists. split; [apply directory_stage_outcome|].
  apply in_flat_map. eexists. split; [apply size_stage_reached|].
  apply filename_stage_outcome.
Qed.

(** The record of the lowest score: a large YAML test file under a
    configuration directory. *)
Definition lowest_record : FileInfo :=
  mkFileInfo "/proj/config/test_limits.yml" "config/test_limits.yml" "text"
             6000 24000 0 "yaml" 0%float.

(** The record of the highest score among all records the function accepts:
    a small record of language [typescript] under a core directory, named as
    an entry point. *)
Definition highest_record : FileInfo :=
  mkFileInfo "/proj/src/main.py" "src/main.py" "text" 10 40 0 "typescript" 0%float.

(** X10: every score is a positive number between the score of
    [lowest_record] (0.5 x 0.6 x 0.8 x 0.7, shown as 0.17) and the score of
    [highest_record] (1.3 x 1.3 x 1.1 x 1.5, shown as 2.79); it is never zero,
    negative or not a number. *)
Theorem X10_score_bounds (fi : FileInfo) (root : string) :
  let s := calculate_relevance_score fi root in
  let lo := calculate_relevance_score lowest_record root in
  let hi := calculate_relevance_score highest_record root in
  (0 <? s)%float = true /\
  (lo <=? s)%float = true /\
  (s <=? hi)%float = true /\
  PyFormat.float2 lo = "0.17" /\
  PyFormat.float2 hi = "2.79".
Proof.
  intros s lo hi.
  assert (Hall : forallb (fun x => (0 <? x)%float && (lo <=? x)%float && (x <=? hi)%float)
                         reached_scores = true)
    by (vm_compute; reflexivity).
  rewrite forallb_forall in Hall.
  specialize (Hall s (score_reached fi root)).
  rewrite !andb_true_iff in Hall. destruct Hall as [[H0 Hlo] Hhi].
  repeat split; assumption || (vm_compute; reflexivity).
Qed.

(** The tests of [calculate_relevance_score] on a relative path. *)
Definition in_core_directory (p : string) : bool :=
  any_in ["src/"; "lib/"; "core/"; "app/"] p.

Definition in_low_priority_directory (p : string) : bool :=
  any_in ["test/"; "tests/"; "docs/"; "doc/"] p.

Definition file_name_of (p : string) : string := PyStr.lower (PyPath.name p).

Definition is_entry_point_name (p : string) : bool :=
  PyStr.mem (file_name_of p) ["main.py"; "index.js"; "app.py"; "server.py"; "main.go"].

Definition is_test_name (p : string) : bool :=
  PyStr.startswith (file_name_of p) "test_" || PyStr.endswith (file_name_of p) "_test.py".

Ltac split_outcomes H :=
  repeat (destruct H as [<-|H]); [..|destruct H].

Ltac decide_branches :=
  repeat match goal with
         | |- context [if ?c then _ else _] => destruct c
         end;
  vm_compute; reflexivity.

(** X11: a core directory raises the rank. Of two records with the same
    language, the same number of tokens and the same file name, the one whose
    path has a core segment ([src/], [lib/], [core/], [app/]) scores
    strictly higher than the one whose path has none. *)
Theorem X11_core_directory_ranks_higher (a b : FileInfo) (root : string) :
  language a = language b ->
  tokens a = tokens b ->
  file_name_of (relative_path a) = file_name_of (relative_path b) ->
  in_core_directory (relative_path a) = true ->
  in_core_directory (relative_path b) = false ->
  (calculate_relevance_score b root <? calculate_relevance_score a root)%float = true.
Proof.
  unfold in_core_directory, file_name_of. intros Hl Ht Hn Ha Hb.
  unfold calculate_relevance_score. rewrite Hl, Ht.
  pose proof (language_stage_outcome (language b) 1%float) as Hw.
  set (w := language_stage (language b) 1%float) in *. clearbody w.
  unfold directory_stage, filename_stage, size_stage. rewrite Ha, Hb, Hn.
  unfold language_outcomes in Hw. cbn [map snd language_weights In] in Hw.
  split_outcomes Hw; decide_branches.
Qed.

Lemma X11_core_directory_ranks_higher_witness :
  let a := mkFileInfo "/proj/src/util.py" "src/util.py" "x = 1" 1 5 0 "python" 0%float in
  let b := mkFileInfo "/proj/extra/Util.py" "extra/Util.py" "y = 2" 1 5 0 "python" 0%float in
  (calculate_relevance_score b "/proj" <? calculate_relevance_score a "/proj")%float = true.
Proof.
  intros a b.
  apply (X11_core_directory_ranks_higher a b "/proj"); reflexivity.
Defined.

(** X12: an entry point in a core directory outranks a test file in a
    low-priority directory. Of two records with the same language and the
    same number of tokens, one in a core directory and named as an entry
    point, the other outside the core directories, in a low-priority
    directory and named as a test, the first scores strictly higher. *)
Theorem X12_entry_point_outranks_test (a b : FileInfo) (root : string) :
  language a = language b ->
  tokens a = tokens b ->
  in_core_directory (relative_path a) = true ->
  is_entry_point_name (relative_path a) = true ->
  in_core_directory (relative_path b) = false ->
  in_low_priority_directory (relative_path b) = true ->
  is_entry_point_name (relative_path b) = false ->
  is_test_name (relative_path b) = true ->
  (calculate_relevance_score b root <? calculate_relevance_score a root)%float = true.
Proof.
  unfold in_core_directory, in_low_priority_directory, is_entry_point_name,
    is_test_name, file_name_of.
  intros Hl Ht Ha Hea Hb Hlow Heb Htest.
  unfold calculate_relevance_score. rewrite Hl, Ht.
  pose proof (language_stage_outcome (language b) 1%float) as Hw.
  set (w := language_stage (language b) 1%float) in *. clearbody w.
  unfold directory_stage, filename_stage, size_stage.
  rewrite Ha, Hb, Hlow, Hea, Heb, Htest.
  unfold language_outcomes in Hw. cbn [map snd language_weights In] in Hw.
  split_outcomes Hw; decide_branches.
Qed.

Lemma X12_entry_point_outranks_test_witness :
  let a := mkFileInfo "/proj/src/main.py" "src/main.py" "x = 1" 400 1600 0 "python" 0%float in
  let b := mkFileInfo "/proj/tests/test_foo.py" "tests/test_foo.py" "y = 2" 400 1600 0
                      "python" 0%float in
  (calculate_relevance_score b "/proj" <? calculate_relevance_score a "/proj")%float = true.
Proof.
  intros a b.
  apply (X12_entry_point_outranks_test a b "/proj"); reflexivity.
Defined.

(** * The other tools and the dispatch of requests *)

(** ** [handle_initialize] and [handle_tools_list] *)

(** The [result] of [handle_initialize]; [capabilities] is the constant
    object with an empty [tools] entry. *)
Record InitializeResult : Type := mkInitializeResult {
  protocolVersion : string;
  serverInfo_name : string;
  serverInfo_version : string
}.

Definition version : string := "2.0.0".

Definition handle_initialize : InitializeResult :=
  mkInitializeResult "2024-11-05" "enhanced-claude-gemini-mcp" version.

(** A default value of an input schema. *)
Inductive Json : Type :=
| JString (s : string)
| JNumber (n : Z).

(** One entry of [properties] in an [inputSchema]. *)
Record ToolProperty : Type := mkToolProperty {
  prop_key : string;
  prop_type : string;
  prop_description : string;
  prop_default : option Json
}.

(** One advertised tool; its [inputSchema] has the type [object], the given
    properties and, when the key is present, the [required] list. *)
Record Tool : Type := mkTool {
  tool_name : string;
  tool_description : string;
  tool_properties : list ToolProperty;
  tool_required : option (list string)
}.

Definition tools : list Tool :=
  [ mkTool "load_codebase"
      "Load entire codebase into Gemini's 1M token context with intelligent prioritization"
      [ mkToolProperty "project_path" "string"
          "Path to the project directory to analyze"
          None;
        mkToolProperty "max_tokens" "number"
          "Maximum tokens to use (default: 900000)"
          (Some (JNumber 900000)) ]
      (Some ["project_path"]);
    mkTool "analyze_architecture"
      "Get comprehensive architecture analysis of loaded codebase"
      [ mkToolProperty "focus" "string"
          "Focus area: architecture, patterns, dependencies, structure, or custom query"
          (Some (JString "architecture")) ]
      None;
    mkTool "semantic_search"
      "Search codebase semantically using natural language queries"
      [ mkToolProperty "query" "string"
          "Natural language description of what to find in the codebase"
          None ]
      (Some ["query"]);
    mkTool "suggest_improvements"
      "Get specific improvement suggestions for the loaded codebase"
      [ mkToolProperty "area" "string"
          "Focus area: performance, security, maintainability, testing, architecture, or general"
          (Some (JString "general")) ]
      None;
    mkTool "explain_codeflow"
      "Trace and explain how specific functionality works across the codebase"
      [ mkToolProperty "functionality" "string"
          "Describe the functionality to trace through the codebase"
          None ]
      (Some ["functionality"]);
    mkTool "codebase_summary"
      "Get a comprehensive summary of the loaded codebase"
      []
      None;
    mkTool "ask_with_context"
      "Ask any question with full codebase context and intelligent analysis"
      [ mkToolProperty "question" "string"
          "Your question about the codebase"
          None ]
      (Some ["question"]) ].

(** [handle_tools_list]: the [tools] of its result. *)
Definition handle_tools_list (GEMINI_AVAILABLE : bool) : list Tool :=
  if negb GEMINI_AVAILABLE then [] else tools.

(** ** The analysis tools *)

(** The double quote. *)
Definition dq : string := String (ascii_of_nat 34) EmptyString.

(** The keys of [arguments] the tools read; [None] for an absent key. *)
Record ToolArguments : Type := mkToolArguments {
  ta_project_path : option string;
  ta_max_tokens : option Budget;
  ta_focus : option string;
  ta_query : option string;
  ta_area : option string;
  ta_functionality : option string;
  ta_question : option string
}.

Definition load_arguments (a : ToolArguments) : Arguments :=
  mkArguments (ta_project_path a) (ta_max_tokens a).

(** [arguments.get(key, default)] *)
Definition get_or (o : option string) (default : string) : string :=
  match o with
  | Some s => s
  | None => default
  end.

(** The text of [arguments.get(key)] inside an f-string: [None] is printed
    as the word None. *)
Definition py_format (o : option string) : string :=
  match o with
  | Some s => s
  | None => "None"
  end.

Definition architecture_prompt (focus : string) : string :=
  PyStr.join nl
    [ "Provide a comprehensive " ++ focus ++ " analysis of this codebase. Include:";
      "";
      "1. **Overall Architecture & Design Patterns**";
      "2. **Key Components & Their Relationships** ";
      "3. **Data Flow & Dependencies**";
      "4. **Technology Stack & Framework Usage**";
      "5. **Code Organization & Structure Quality**";
      "6. **Notable Design Decisions**";
      "";
      "Be specific and reference actual files, functions, and code patterns you observe." ].

Definition search_prompt (query : string) : string :=
  PyStr.join nl
    [ "Perform a semantic search for: " ++ dq ++ query ++ dq;
      "";
      "Provide:";
      "1. **Exact file locations** where this functionality exists";
      "2. **Relevant code snippets** with line context";
      "3. **Related functions/classes** that work together";
      "4. **Usage patterns** across the codebase";
      "5. **Dependencies** and connections to other parts";
      "";
      "Focus on semantic meaning, not just keyword matching." ].

Definition improvements_prompt (area : string) : string :=
  PyStr.join nl
    [ "Analyze the codebase and suggest specific improvements for " ++ area ++ ":";
      "";
      "Provide:";
      "1. **Specific Issues** with file/line references";
      "2. **Concrete Solutions** with code examples";
      "3. **Priority Ranking** (High/Medium/Low)";
      "4. **Implementation Steps** for each suggestion";
      "5. **Potential Risks** of each change";
      "";
      "Focus on actionable improvements with clear benefits." ].

Definition codeflow_prompt (functionality : string) : string :=
  PyStr.join nl
    [ "Trace and explain how this functionality works: " ++ dq ++ functionality ++ dq;
      "";
      "Provide:";
      "1. **Entry Points** - Where this functionality starts";
      "2. **Code Flow** - Step-by-step execution path across files";
      "3. **Key Functions/Classes** - Main components involved";
      "4. **Data Transformations** - How data flows and changes";
      "5. **External Dependencies** - APIs, databases, etc.";
      "6. **Visual Flow** - ASCII diagram if helpful";
      "";
      "Reference specific files and line numbers." ].

Definition summary_prompt : string :=
  PyStr.join nl
    [ "Provide a comprehensive summary of this entire codebase:";
      "";
      "1. **Project Purpose** - What does this software do?";
      "2. **Architecture Overview** - How is it structured?";
      "3. **Key Features** - Main functionality areas";
      "4. **Technology Stack** - Languages, frameworks, tools";
      "5. **Code Quality Assessment** - Strengths and areas for improvement";
      "6. **Development Insights** - Patterns, conventions, notable aspects";
      "";
      "Make it accessible for both technical and non-technical stakeholders." ].

(** The answer of the analysis tools when no codebase is loaded. *)
Definition no_codebase_message : string :=
  "‚ùå No codebase loaded. Use 'load_codebase' first.".

(** [not current_codebase_context] is false: the global holds a text that
    is not empty. *)
Definition context_loaded (current_codebase_context : option string) : bool :=
  match current_codebase_context with
  | Some context => PyStr.truthy context
  | None => false
  end.

Section Analysis.

(** [model.generate_content(full_prompt, ...)] with the given temperature,
    followed by [response.text]: the text, or [str(e)] of the exception
    raised on the way. *)
Variable generate : string -> float -> string + string.

(** [call_gemini_with_context]; a [prompt] that is [None] makes the
    concatenation raise, which the [except] clause reports like any other
    failure. *)
Definition call_gemini_with_context (current_codebase_context : option string)
           (prompt : option string) (temperature : float) : string :=
  match prompt with
  | None =>
      "Error calling Gemini: can only concatenate str (not " ++ dq ++ "NoneType" ++ dq ++
      ") to str"
  | Some prompt =>
      let full_prompt :=
        match current_codebase_context with
        | Some context =>
            if PyStr.truthy context
            then context ++ nl ++ nl ++ "## USER QUERY:" ++ nl ++ prompt
            else "‚ùå No codebase loaded. Please use 'load_codebase' first." ++ nl ++ nl ++ prompt
        | None => "‚ùå No codebase loaded. Please use 'load_codebase' first." ++ nl ++ nl ++ prompt
        end in
      match generate full_prompt temperature with
      | inl text => text
      | inr e => "Error calling Gemini: " ++ e
      end
  end.

(** The branches of [handle_tool_call] after [load_codebase]: the six
    analysis tools, and the [ValueError] of a name that is none of them. *)
Definition analysis_tools (arguments : ToolArguments) (st : ServerState)
           (tool_name : string) : Response :=
  let context := current_codebase_context st in
  let guarded (prompt : option string) (temperature : float) : Response :=
    RpcResult (wrap_result
                 (if negb (context_loaded context) then no_codebase_message
                  else call_gemini_with_context context prompt temperature)) in
  if String.eqb tool_name "analyze_architecture" then
    guarded (Some (architecture_prompt (get_or (ta_focus arguments) "architecture")))
            0.2%float
  else if String.eqb tool_name "semantic_search" then
    guarded (Some (search_prompt (py_format (ta_query arguments)))) 0.2%float
  else if String.eqb tool_name "suggest_improvements" then
    guarded (Some (improvements_prompt (get_or (ta_area arguments) "general"))) 0.3%float
  else if String.eqb tool_name "explain_codeflow" then
    guarded (Some (codeflow_prompt (py_format (ta_functionality arguments)))) 0.2%float
  else if String.eqb tool_name "codebase_summary" then
    guarded (Some summary_prompt) 0.3%float
  else if String.eqb tool_name "ask_with_context" then
    guarded (ta_question arguments) 0.3%float
  else
    RpcError ("Unknown tool: " ++ tool_name).

Variable TIKTOKEN_AVAILABLE : bool.
Variable encode : string -> option (list Z).
Variable filesystem : string -> option Found.

(** [handle_tool_call] with all its branches. *)
Definition handle_tool_call_complete (st : ServerState) (tool_name : string)
           (arguments : ToolArguments) : Outcome :=
  handle_tool_call TIKTOKEN_AVAILABLE encode filesystem (analysis_tools arguments)
                   st tool_name (load_arguments arguments).

(** ** The dispatch of [main] *)

Variable GEMINI_AVAILABLE : bool.
Variable Id : Type.

(** A request that [json.loads] read as an object whose [params] and
    [arguments] are objects; an absent [method] or [name] is [None]. *)
Record Request : Type := mkRequest {
  req_method : option string;
  req_id : Id;
  req_name : option string;
  req_arguments : ToolArguments
}.

Inductive ReplyBody : Type :=
| InitializeReply (result : InitializeResult)
| ToolsReply (result : list Tool)
| ToolCallReply (response : Response)
| ErrorReply (code : Z) (message : string).

Record Reply : Type := mkReply {
  reply_id : Id;
  reply_body : ReplyBody
}.

(** The body of the loop of [main] for such a request: the new globals and
    the response that is sent. A name that is [None] matches no tool and is
    printed as the word None, like the text [None] itself. *)
Definition handle_request (st : ServerState) (request : Request) : ServerState * Reply :=
  let method := py_format (req_method request) in
  let request_id := req_id request in
  if String.eqb method "initialize" then
    (st, mkReply request_id (InitializeReply handle_initialize))
  else if String.eqb method "tools/list" then
    (st, mkReply request_id (ToolsReply (handle_tools_list GEMINI_AVAILABLE)))
  else if String.eqb method "tools/call" then
    let o := handle_tool_call_complete st (py_format (req_name request))
                                       (req_arguments request) in
    (out_state o, mkReply request_id (ToolCallReply (out_response o)))
  else
    (st, mkReply request_id (ErrorReply (-32601) ("Method not found: " ++ method))).

End Analysis.

Arguments mkRequest {Id} _ _ _ _.
Arguments req_method {Id} _.
Arguments req_id {Id} _.
Arguments req_name {Id} _.
Arguments req_arguments {Id} _.
Arguments mkReply {Id} _ _.
Arguments reply_id {Id} _.
Arguments reply_body {Id} _.

(** * Properties of the tools and of the dispatch *)

Section ToolFacts.

Variable generate : string -> float -> string + string.
Variable tk : bool.
Variable enc : string -> option (list Z).
Variable filesystem : string -> option Found.

(** The names the [if]/[elif] chain of [handle_tool_call] tests. *)
Lemma advertised_names :
  map tool_name tools =
  [ "load_codebase"; "analyze_architecture"; "semantic_search";
    "suggest_improvements"; "explain_codeflow"; "codebase_summary";
    "ask_with_context" ].
Proof. reflexivity. Qed.

(** The answer of a tool that is not [load_codebase] is that of
    [analysis_tools], and the call changes nothing. *)
Lemma handle_other_tool (st : ServerState) (name : string) (arguments : ToolArguments) :
  name <> "load_codebase" ->
  handle_tool_call_complete generate tk enc filesystem st name arguments =
  mkOutcome st (analysis_tools generate arguments st name) [].
Proof.
  intros Hname. unfold handle_tool_call_complete, handle_tool_call.
  apply String.eqb_neq in Hname. rewrite Hname. reflexivity.
Qed.

(** The value that [max_tokens] holds in a call of [load_codebase]. *)
Definition budget_of (arguments : ToolArguments) : Budget :=
  match ta_max_tokens arguments with
  | Some m => m
  | None => BudgetInt 900000
  end.


(** A scan that finds no candidate returns the same dict for every budget. *)
Lemma scan_codebase_no_candidates (root : string) (tree : Node) (m : Z) :
  candidates tk enc root tree = [] ->
  scan_codebase tk enc root tree m = mkScanResult [] 0 0 0 root.
Proof.
  unfold candidates, scan_codebase. intros ->. reflexivity.
Qed.

(** When the call of [scan_codebase] returns, and what it returns. *)
Lemma call_scan_codebase_returns (found : Found) (budget : Budget) (data : ScanResult) :
  call_scan_codebase tk enc found budget = inr data <->
  exists root tree,
    found = Walked root tree /\
    ((exists m, budget = BudgetInt m /\ data = scan_codebase tk enc root tree m) \/
     (exists type_name,
         budget = BudgetOther type_name /\ candidates tk enc root tree = [] /\
         data = mkScanResult [] 0 0 0 root)).
Proof.
  unfold call_scan_codebase, candidates.
  destruct found as [root tree|w].
  - destruct budget as [m|type_name].
    + split.
      * intros [= <-]. exists root, tree. split; [reflexivity|].
        left. exists m. split; reflexivity.
      * intros (r & t & [= <- <-] & [(m' & [= <-] & ->)|(tn & H & _)]);
          [reflexivity | discriminate].
    + destruct (sort_by_relevance (scan_entries tk enc root (rglob tree))) as [|x l] eqn:Hc.
      * split.
        -- intros [= <-]. exists root, tree. split; [reflexivity|].
           right. exists type_name. repeat split. exact Hc.
        -- intros (r & t & [= <- <-] & [(m' & H & _)|(tn & _ & _ & ->)]);
             [discriminate | reflexivity].
      * split; [discriminate|].
        intros (r & t & [= <- <-] & [(m' & H & _)|(tn & _ & H & _)]); [discriminate|].
        rewrite Hc in H. discriminate.
  - split; [discriminate|]. intros (r & t & H & _). discriminate.
Qed.

(** The message of an exception of the scan is never the message of an
    unknown tool. *)
Lemma str_exception_not_unknown_tool (e : ScanException) (name : string) :
  str_exception e <> "Unknown tool: " ++ name.
Proof. destruct e as [[errno detail|detail]|type_name]; simpl; discriminate. Qed.

(** The four outcomes of [load_codebase]. *)
Lemma handle_load_codebase (st : ServerState) (arguments : ToolArguments) :
  let o := handle_tool_call_complete generate tk enc filesystem st "load_codebase" arguments in
  (ta_project_path arguments = None /\
   o = mkOutcome st
         (RpcError "stat: path should be string, bytes, os.PathLike or integer, not NoneType")
         []) \/
  (exists p, ta_project_path arguments = Some p /\ filesystem p = None /\
             o = mkOutcome st (RpcResult (wrap_result (missing_path_message p)))
                           [PathExists p]) \/
  (exists p found e,
      ta_project_path arguments = Some p /\ filesystem p = Some found /\
      call_scan_codebase tk enc found (budget_of arguments) = inl e /\
      o = mkOutcome st (RpcError (str_exception e))
                    [PathExists p; ScanCodebase p (budget_of arguments)]) \/
  (exists p found data,
      ta_project_path arguments = Some p /\ filesystem p = Some found /\
      call_scan_codebase tk enc found (budget_of arguments) = inr data /\
      o = mkOutcome (mkServerState (Some (create_codebase_context data)) (Some p) (Some data))
                    (RpcResult (wrap_result (loaded_message data)))
                    [PathExists p; ScanCodebase p (budget_of arguments)]).
Proof.
  unfold handle_tool_call_complete, handle_tool_call, load_arguments, budget_of.
  cbn [String.eqb Ascii.eqb Bool.eqb arg_project_path arg_max_tokens].
  destruct (ta_project_path arguments) as [p|]; [|left; split; reflexivity].
  right. destruct (filesystem p) as [found|] eqn:Hfs.
  - right.
    destruct (call_scan_codebase tk enc found
                match ta_max_tokens arguments with
                | Some m => m
                | None => BudgetInt 900000
                end) as [e|data] eqn:Hscan.
    + left. exists p, found, e. repeat split; assumption.
    + right. exists p, found, data. repeat split; assumption.
  - left. exists p. repeat split. exact Hfs.
Qed.

Ltac by_tool_name name :=
  destruct (String.eqb_spec name "analyze_architecture") as [->|?];
  [|destruct (String.eqb_spec name "semantic_search") as [->|?];
    [|destruct (String.eqb_spec name "suggest_improvements") as [->|?];
      [|destruct (String.eqb_spec name "explain_codeflow") as [->|?];
        [|destruct (String.eqb_spec name "codebase_summary") as [->|?];
          [|destruct (String.eqb_spec name "ask_with_context") as [->|?]]]]]].

(** The answer of [analysis_tools]: a result for its six tools, the error of
    an unknown tool for any other name. *)
Lemma analysis_tools_answer (st : ServerState) (name : string) (arguments : ToolArguments) :
  (In name [ "analyze_architecture"; "semantic_search"; "suggest_improvements";
             "explain_codeflow"; "codebase_summary"; "ask_with_context" ] /\
   exists text, analysis_tools generate arguments st name = RpcResult text) \/
  (~ In name [ "analyze_architecture"; "semantic_search"; "suggest_improvements";
               "explain_codeflow"; "codebase_summary"; "ask_with_context" ] /\
   analysis_tools generate arguments st name = RpcError ("Unknown tool: " ++ name)).
Proof.
  unfold analysis_tools.
  by_tool_name name;
    try (left; split; [simpl; tauto | eexists; reflexivity]).
  right. split; [simpl; intuition congruence|].
  repeat match goal with
         | H : name <> _ |- _ => apply String.eqb_neq in H; rewrite H; clear H
         end.
  reflexivity.
Qed.

(** X13: the tools that [tools/list] advertises are the tools that
    [tools/call] serves. A call with an advertised name is never answered
    with the error of an unknown tool; a call with any other name is answered
    with that error and changes nothing. *)
Theorem X13_advertised_tools_are_served (st : ServerState) (name : string)
        (arguments : ToolArguments) :
  let o := handle_tool_call_complete generate tk enc filesystem st name arguments in
  (In name (map tool_name (handle_tools_list true)) <->
   out_response o <> RpcError ("Unknown tool: " ++ name)) /\
  (~ In name (map tool_name (handle_tools_list true)) ->
   o = mkOutcome st (RpcError ("Unknown tool: " ++ name)) []).
Proof.
  intros o. subst o. cbn [handle_tools_list negb]. rewrite advertised_names.
  destruct (String.eqb_spec name "load_codebase") as [->|Hname].
  - split; [|intros H; exfalso; apply H; left; reflexivity].
    split; [intros _|intros _; left; reflexivity].
    destruct (handle_load_codebase st arguments)
      as [(_ & ->)|[(p & _ & _ & ->)|[(p & found & e & _ & _ & _ & ->)
                                     |(p & found & data & _ & _ & _ & ->)]]];
      cbn [out_response]; try discriminate.
    intros [= H]. exact (str_exception_not_unknown_tool e "load_codebase" H).
  - rewrite (handle_other_tool st name arguments Hname). cbn [out_response].
    destruct (analysis_tools_answer st name arguments) as [(Hin & text & ->)|(Hout & ->)].
    + split; [|intros H; exfalso; apply H; right; exact Hin].
      split; [intros _; discriminate | intros _; right; exact Hin].
    + split; [|reflexivity].
      split; [intros [H|H]; [congruence | contradiction] | intros H; exfalso; apply H; reflexivity].
Qed.


(** X15: while no codebase is loaded (the global is [None] or empty), each
    of the six analysis tools answers with the same fixed text, whatever its
    arguments and whatever the model would say, and changes nothing. *)
Theorem X15_analysis_needs_a_loaded_codebase (st : ServerState) (name : string)
        (arguments : ToolArguments) :
  context_loaded (current_codebase_context st) = false ->
  In name [ "analyze_architecture"; "semantic_search"; "suggest_improvements";
            "explain_codeflow"; "codebase_summary"; "ask_with_context" ] ->
  handle_tool_call_complete generate tk enc filesystem st name arguments =
  mkOutcome st (RpcResult (wrap_result no_codebase_message)) [].
Proof.
  intros Hctx Hin.
  assert (Hname : name <> "load_codebase").
  { intros ->. simpl in Hin. intuition discriminate. }
  rewrite (handle_other_tool st name arguments Hname). f_equal.
  unfold analysis_tools. rewrite Hctx. cbn [negb].
  simpl in Hin.
  destruct Hin as [<-|[<-|[<-|[<-|[<-|[<-|[]]]]]]]; reflexivity.
Qed.

End ToolFacts.

Lemma X15_analysis_needs_a_loaded_codebase_witness :
  handle_tool_call_complete (fun _ _ => inl "an answer") false (fun _ => None)
    demo_filesystem (mkServerState None None None) "semantic_search"
    (mkToolArguments None None None (Some "where is the parser") None None None) =
  mkOutcome (mkServerState None None None) (RpcResult (wrap_result no_codebase_message)) [].
Proof.
  apply (X15_analysis_needs_a_loaded_codebase (fun _ _ => inl "an answer") false
           (fun _ => None) demo_filesystem (mkServerState None None None) "semantic_search").
  - reflexivity.
  - right. left. reflexivity.
Defined.

(** The default that the schema of [tool] advertises for [key]. *)
Definition advertised_default (tool key : string) : option Json :=
  match find (fun t => String.eqb (tool_name t) tool) tools with
  | Some t =>
      match find (fun p => String.eqb (prop_key p) key) (tool_properties t) with
      | Some p => prop_default p
      | None => None
      end
  | None => None
  end.

(** Whether the schema of [tool] lists [key] as required. *)
Definition advertised_required (tool key : string) : bool :=
  match find (fun t => String.eqb (tool_name t) tool) tools with
  | Some t =>
      match tool_required t with
      | Some keys => PyStr.mem key keys
      | None => false
      end
  | None => false
  end.

Section ArgumentFacts.

Variable generate : string -> float -> string + string.
Variable tk : bool.
Variable enc : string -> option (list Z).
Variable filesystem : string -> option Found.

Let call := handle_tool_call_complete generate tk enc filesystem.

(** X16: an optional argument that is absent behaves as the default that
    the schema advertises: [max_tokens] of [load_codebase], [focus] of
    [analyze_architecture] and [area] of [suggest_improvements]. *)
Theorem X16_absent_argument_is_the_advertised_default :
  (exists m : Z,
      advertised_default "load_codebase" "max_tokens" = Some (JNumber m) /\
      forall st p fo qy ar fu qu,
        call st "load_codebase" (mkToolArguments p None fo qy ar fu qu) =
        call st "load_codebase" (mkToolArguments p (Some (BudgetInt m)) fo qy ar fu qu)) /\
  (exists d : string,
      advertised_default "analyze_architecture" "focus" = Some (JString d) /\
      forall st p mt qy ar fu qu,
        call st "analyze_architecture" (mkToolArguments p mt None qy ar fu qu) =
        call st "analyze_architecture" (mkToolArguments p mt (Some d) qy ar fu qu)) /\
  (exists d : string,
      advertised_default "suggest_improvements" "area" = Some (JString d) /\
      forall st p mt fo qy fu qu,
        call st "suggest_improvements" (mkToolArguments p mt fo qy None fu qu) =
        call st "suggest_improvements" (mkToolArguments p mt fo qy (Some d) fu qu)).
Proof.
  split; [|split].
  - exists 900000. split; [reflexivity|]. intros. reflexivity.
  - exists "architecture". split; [reflexivity|]. intros. reflexivity.
  - exists "general". split; [reflexivity|]. intros. reflexivity.
Qed.

(** X17: the arguments advertised as required are not checked. Without
    [query], [semantic_search] asks the model about the word None, as if that
    were the query, and so does [explain_codeflow] without [functionality];
    without [question], [ask_with_context] on a loaded codebase answers with
    the text of a failed call and does not consult the model. *)
Theorem X17_required_arguments_are_not_checked :
  advertised_required "semantic_search" "query" = true /\
  advertised_required "explain_codeflow" "functionality" = true /\
  advertised_required "ask_with_context" "question" = true /\
  (forall st p mt fo ar fu qu,
      call st "semantic_search" (mkToolArguments p mt fo None ar fu qu) =
      call st "semantic_search" (mkToolArguments p mt fo (Some "None") ar fu qu)) /\
  (forall st p mt fo qy ar qu,
      call st "explain_codeflow" (mkToolArguments p mt fo qy ar None qu) =
      call st "explain_codeflow" (mkToolArguments p mt fo qy ar (Some "None") qu)) /\
  (forall st p mt fo qy ar fu,
      context_loaded (current_codebase_context st) = true ->
      call st "ask_with_context" (mkToolArguments p mt fo qy ar fu None) =
      mkOutcome st
        (RpcResult (wrap_result
           ("Error calling Gemini: can only concatenate str (not " ++ dq ++ "NoneType" ++
            dq ++ ") to str")))
        []).
Proof.
  repeat split.
  intros st p mt fo qy ar fu Hctx.
  unfold call, handle_tool_call_complete, handle_tool_call, analysis_tools.
  cbn [String.eqb Ascii.eqb Bool.eqb ta_question]. rewrite Hctx. reflexivity.
Qed.

End ArgumentFacts.

(** ** Requests and the globals *)

Section RequestFacts.

Variable generate : string -> float -> string + string.
Variable tk : bool.
Variable enc : string -> option (list Z).
Variable filesystem : string -> option Found.
Variable gemini_available : bool.
Variable Id : Type.

Let serve := handle_request generate tk enc filesystem gemini_available Id.

Lemma py_format_is (o : option string) (s : string) :
  s <> "None" -> py_format o = s -> o = Some s.
Proof. destruct o; simpl; intros Hs H; congruence. Qed.

(** X18: the globals change on one kind of request only. Whatever the
    request, the response carries its id, and either the globals are what
    they were, or the request is a [tools/call] of [load_codebase] with a
    path that exists, and the globals are the serialized document, the path
    as given and the result of the scan of the tree found there, with the
    budget given or 900000. *)
Theorem X18_only_a_successful_load_changes_the_globals
        (st : ServerState) (request : Request Id) :
  let st' := fst (serve st request) in
  let reply := snd (serve st request) in
  reply_id reply = req_id request /\
  (st' = st \/
   (req_method request = Some "tools/call" /\
    req_name request = Some "load_codebase" /\
    exists p root tree,
      ta_project_path (req_arguments request) = Some p /\
      filesystem p = Some (Walked root tree) /\
      let max_tokens :=
        match ta_max_tokens (req_arguments request) with
        | Some (BudgetInt m) => m
        | _ => 900000
        end in
      let data := scan_codebase tk enc root tree max_tokens in
      st' = mkServerState (Some (create_codebase_context data)) (Some p) (Some data))).
Proof.
  intros st' reply. subst st' reply. unfold serve, handle_request.
  destruct (String.eqb (py_format (req_method request)) "initialize");
    [split; [reflexivity | left; reflexivity]|].
  destruct (String.eqb (py_format (req_method request)) "tools/list");
    [split; [reflexivity | left; reflexivity]|].
  destruct (String.eqb_spec (py_format (req_method request)) "tools/call") as [Hm|_];
    [|split; [reflexivity | left; reflexivity]].
  cbn [fst snd reply_id]. split; [reflexivity|].
  apply py_format_is in Hm; [|discriminate].
  destruct (String.eqb_spec (py_format (req_name request)) "load_codebase") as [Hn|Hn].
  - rewrite Hn. apply py_format_is in Hn; [|discriminate].
    destruct (handle_load_codebase generate tk enc filesystem st (req_arguments request))
      as [(_ & ->)|[(p & _ & _ & ->)|[(p & found & e & _ & _ & _ & ->)
                                     |(p & found & data & Hp & Hfs & Hscan & ->)]]];
      cbn [out_state]; [left; reflexivity | left; reflexivity | left; reflexivity |].
    right. repeat split; try assumption.
    apply call_scan_codebase_returns in Hscan.
    destruct Hscan as (root & tree & -> & Hdata).
    exists p, root, tree. split; [exact Hp|]. split; [exact Hfs|].
    cbv zeta. unfold budget_of in Hdata.
    destruct (ta_max_tokens (req_arguments request)) as [[m'|tn']|];
      destruct Hdata as [(m & [= <-] & ->)|(tn & Hb & Hnone & ->)];
      try discriminate Hb; try reflexivity.
    rewrite (scan_codebase_no_candidates tk enc root tree 900000 Hnone). reflexivity.
  - rewrite (handle_other_tool generate tk enc filesystem st _ (req_arguments request) Hn).
    left. reflexivity.
Qed.

(** X19: a method other than [initialize], [tools/list] and [tools/call],
    or no method at all, is answered with the error code -32601 and the text
    that names the method; the globals stay as they are. *)
Theorem X19_unknown_method (st : ServerState) (request : Request Id) :
  req_method request <> Some "initialize" ->
  req_method request <> Some "tools/list" ->
  req_method request <> Some "tools/call" ->
  serve st request =
  (st, mkReply (req_id request)
               (ErrorReply (-32601)
                           ("Method not found: " ++ py_format (req_method request)))).
Proof.
  intros H1 H2 H3. unfold serve, handle_request.
  destruct (String.eqb_spec (py_format (req_method request)) "initialize") as [E|_].
  { apply py_format_is in E; [contradiction | discriminate]. }
  destruct (String.eqb_spec (py_format (req_method request)) "tools/list") as [E|_].
  { apply py_format_is in E; [contradiction | discriminate]. }
  destruct (String.eqb_spec (py_format (req_method request)) "tools/call") as [E|_].
  { apply py_format_is in E; [contradiction | discriminate]. }
  reflexivity.
Qed.

End RequestFacts.

Lemma X19_unknown_method_witness :
  handle_request (fun _ _ => inl "an answer") false (fun _ => None) demo_filesystem true
                 Z demo_session
                 (mkRequest (Some "resources/list") 7
                            None (mkToolArguments None None None None None None None)) =
  (demo_session, mkReply 7 (ErrorReply (-32601) "Method not found: resources/list")).
Proof.
  apply (X19_unknown_method (fun _ _ => inl "an answer") false (fun _ => None)
           demo_filesystem true Z demo_session); discriminate.
Defined.

(** ** A loaded codebase *)

Lemma truthy_append_r (a b : string) :
  PyStr.truthy b = true -> PyStr.truthy (a ++ b) = true.
Proof. destruct a; simpl; auto. Qed.

(** The serialized document is never the empty text. *)
Lemma create_codebase_context_truthy (codebase_data : ScanResult) :
  PyStr.truthy (create_codebase_context codebase_data) = true.
Proof. unfold create_codebase_context. apply truthy_append_r. reflexivity. Qed.

Section LoadedFacts.

Variable generate : string -> float -> string + string.
Variable tk : bool.
Variable enc : string -> option (list Z).
Variable filesystem : string -> option Found.

Let call := handle_tool_call_complete generate tk enc filesystem.

(** X20: a load of an existing path whose walk runs to its end, with a
    [max_tokens] that is an integer or absent, enables the analysis tools,
    even when it selects no file. After it, [ask_with_context] sends the
    model the serialized document of the scan, the heading of the user query
    and the question, at temperature 0.3; it answers with the text of the
    model, or with the text of its failure, and leaves the globals as the
    load set them. *)
Theorem X20_load_then_ask (st : ServerState) (p root q : string) (tree : Node)
        (budget : option Z) (fo qy ar fu qu fo' qy' ar' fu' : option string)
        (p' : option string) (mt' : option Budget) :
  filesystem p = Some (Walked root tree) ->
  let o1 := call st "load_codebase"
                 (mkToolArguments (Some p) (option_map BudgetInt budget) fo qy ar fu qu) in
  let o2 := call (out_state o1) "ask_with_context"
                 (mkToolArguments p' mt' fo' qy' ar' fu' (Some q)) in
  let max_tokens := match budget with Some m => m | None => 900000 end in
  let document := create_codebase_context (scan_codebase tk enc root tree max_tokens) in
  current_codebase_context (out_state o1) = Some document /\
  out_state o2 = out_state o1 /\
  out_response o2 =
    RpcResult (wrap_result
                 match generate (document ++ nl ++ nl ++ "## USER QUERY:" ++ nl ++ q)
                                0.3%float with
                 | inl text => text
                 | inr e => "Error calling Gemini: " ++ e
                 end).
Proof.
  intros Hfs o1 o2 max_tokens document.
  assert (H1 : out_state o1 =
               mkServerState (Some document) (Some p)
                             (Some (scan_codebase tk enc root tree max_tokens))).
  { subst o1. unfold call, handle_tool_call_complete, handle_tool_call, load_arguments.
    cbn [String.eqb Ascii.eqb Bool.eqb arg_project_path arg_max_tokens
         ta_project_path ta_max_tokens].
    rewrite Hfs. destruct budget; reflexivity. }
  subst o2. rewrite H1. cbn [current_codebase_context].
  split; [reflexivity|].
  unfold call, handle_tool_call_complete, handle_tool_call, analysis_tools,
    call_gemini_with_context, context_loaded.
  cbn [String.eqb Ascii.eqb Bool.eqb current_codebase_context ta_question
       out_state out_response].
  subst document. rewrite create_codebase_context_truthy. cbn [negb].
  split; reflexivity.
Qed.

(** X21: a load replaces the session and merges nothing. For the same
    arguments and two sessions held before, the response and the effects of
    [load_codebase] are the same, and either the load fails and each session
    is left exactly as it was, or it succeeds and the new session is the same
    in both cases: the document, the path as given and the dict of the scan,
    with nothing of what was held before. *)
Theorem X21_load_replaces_the_session (st st' : ServerState) (arguments : ToolArguments) :
  let o := call st "load_codebase" arguments in
  let o' := call st' "load_codebase" arguments in
  out_response o = out_response o' /\
  out_effects o = out_effects o' /\
  ((out_state o = st /\ out_state o' = st' /\
    forall data, out_response o <> RpcResult (wrap_result (loaded_message data))) \/
   (out_state o = out_state o' /\
    exists p data,
      ta_project_path arguments = Some p /\
      out_response o = RpcResult (wrap_result (loaded_message data)) /\
      out_state o =
        mkServerState (Some (create_codebase_context data)) (Some p) (Some data))).
Proof.
  intros o o'. subst o o'.
  unfold call, handle_tool_call_complete, handle_tool_call, load_arguments.
  cbn [String.eqb Ascii.eqb Bool.eqb arg_project_path arg_max_tokens].
  destruct (ta_project_path arguments) as [p|].
  - destruct (filesystem p) as [found|].
    + destruct (call_scan_codebase tk enc found _) as [e|data];
        cbn [out_state out_response out_effects].
      * split; [reflexivity|]. split; [reflexivity|]. left.
        repeat split. intros data. discriminate.
      * split; [reflexivity|]. split; [reflexivity|]. right.
        split; [reflexivity|]. exists p, data. repeat split.
    + cbn [out_state out_response out_effects].
      split; [reflexivity|]. split; [reflexivity|]. left.
      repeat split. intros data [= H].
  - cbn [out_state out_response out_effects].
    split; [reflexivity|]. split; [reflexivity|]. left.
    repeat split. intros data. discriminate.
Qed.

(** X25: a [max_tokens] that is no number (null, a string) is only
    noticed when a file is compared with it. When a file of the tree has
    passed the filters, the load is answered with the error of the comparison
    and the globals are left as they were; when none has, the load succeeds
    with an empty selection. *)
Theorem X25_max_tokens_that_is_no_number (st : ServerState) (p root type_name : string)
        (tree : Node) (fo qy ar fu qu : option string) :
  filesystem p = Some (Walked root tree) ->
  let o := call st "load_codebase"
                (mkToolArguments (Some p) (Some (BudgetOther type_name)) fo qy ar fu qu) in
  let empty := mkScanResult [] 0 0 0 root in
  (candidates tk enc root tree <> [] ->
   o = mkOutcome st
         (RpcError ("'<=' not supported between instances of 'int' and '" ++ type_name ++ "'"))
         [PathExists p; ScanCodebase p (BudgetOther type_name)]) /\
  (candidates tk enc root tree = [] ->
   o = mkOutcome (mkServerState (Some (create_codebase_context empty)) (Some p) (Some empty))
         (RpcResult (wrap_result (loaded_message empty)))
         [PathExists p; ScanCodebase p (BudgetOther type_name)]).
Proof.
  intros Hfs o empty. subst o.
  unfold call, handle_tool_call_complete, handle_tool_call, load_arguments,
    call_scan_codebase, candidates.
  cbn [String.eqb Ascii.eqb Bool.eqb arg_project_path arg_max_tokens
       ta_project_path ta_max_tokens].
  rewrite Hfs.
  destruct (sort_by_relevance (scan_entries tk enc root (rglob tree))) as [|x l].
  - split; [intros H; exfalso; apply H; reflexivity | intros _; reflexivity].
  - split; [intros _; reflexivity | discriminate].
Qed.

End LoadedFacts.

Lemma X20_load_then_ask_witness :
  let generate := fun (prompt : string) (_ : float) =>
                    @inl string string (PyFormat.int (PyStr.len prompt)) in
  let o1 := handle_tool_call_complete generate false (fun _ => None) demo_filesystem
              (mkServerState None None None) "load_codebase"
              (mkToolArguments (Some "/proj") (Some (BudgetInt (-1))) None None None None None) in
  let o2 := handle_tool_call_complete generate false (fun _ => None) demo_filesystem
              (out_state o1) "ask_with_context"
              (mkToolArguments None None None None None None (Some "what is this?")) in
  demo_filesystem "/proj" = Some (Walked "/proj" demo_tree) /\
  out_state o2 = out_state o1 /\
  option_map files (current_codebase_data (out_state o1)) = Some [] /\
  exists answer, out_response o2 = RpcResult (wrap_result answer).
Proof.
  intros generate o1 o2.
  split; [reflexivity|].
  destruct (X20_load_then_ask generate false (fun _ => None) demo_filesystem
              (mkServerState None None None) "/proj" "/proj" "what is this?" demo_tree
              (Some (-1)) None None None None None None None None None None None
              eq_refl) as (_ & Hstate & Hanswer).
  split; [exact Hstate|]. split; [reflexivity|].
  eexists. exact Hanswer.
Defined.

Lemma X25_max_tokens_that_is_no_number_witness :
  let o := handle_tool_call_complete (fun _ _ => inl "an answer") false (fun _ => None)
             demo_filesystem demo_session "load_codebase"
             (mkToolArguments (Some "/proj") (Some (BudgetOther "NoneType"))
                              None None None None None) in
  demo_filesystem "/proj" = Some (Walked "/proj" demo_tree) /\
  candidates false (fun _ => None) "/proj" demo_tree <> [] /\
  o = mkOutcome demo_session
        (RpcError "'<=' not supported between instances of 'int' and 'NoneType'")
        [PathExists "/proj"; ScanCodebase "/proj" (BudgetOther "NoneType")].
Proof.
  intros o.
  assert (Hne : candidates false (fun _ => None) "/proj" demo_tree <> [])
    by (vm_compute; discriminate).
  split; [reflexivity|]. split; [exact Hne|].
  apply (X25_max_tokens_that_is_no_number (fun _ _ => inl "an answer") false
           (fun _ => None) demo_filesystem demo_session "/proj" "/proj" "NoneType"
           demo_tree None None None None None eq_refl).
  exact Hne.
Defined.

(** ** The languages of the loaded message *)

(** The dict [languages] that [load_codebase] fills, as its items. *)
Definition language_counts (data : ScanResult) : list (string * Z) :=
  fold_left (fun languages file_info => count_language languages (language file_info))
            (files data) [].

Definition sum_counts (items : list (string * Z)) : Z :=
  fold_right (fun it acc => snd it + acc) 0 items.

Lemma count_language_sum (languages : list (string * Z)) (lang : string) :
  sum_counts (count_language languages lang) = sum_counts languages + 1.
Proof.
  induction languages as [|[l c] rest IH]; simpl; [reflexivity|].
  destruct (String.eqb l lang); simpl; lia.
Qed.

Lemma count_language_keys (languages : list (string * Z)) (lang k : string) :
  In k (map fst (count_language languages lang)) <-> k = lang \/ In k (map fst languages).
Proof.
  induction languages as [|[l c] rest IH]; simpl.
  - intuition congruence.
  - destruct (String.eqb_spec l lang) as [->|Hne]; simpl.
    + intuition congruence.
    + rewrite IH. intuition congruence.
Qed.

Lemma count_language_NoDup (languages : list (string * Z)) (lang : string) :
  NoDup (map fst languages) -> NoDup (map fst (count_language languages lang)).
Proof.
  induction languages as [|[l c] rest IH]; simpl; intros Hnd.
  - constructor; [intros [] | constructor].
  - inversion Hnd as [|? ? Hnotin Hrest]; subst.
    destruct (String.eqb_spec l lang) as [->|Hne]; simpl.
    + constructor; assumption.
    + constructor; [|apply IH; exact Hrest].
      rewrite count_language_keys. intros [->|Hin]; [apply Hne; reflexivity | contradiction].
Qed.

Lemma count_language_positive (languages : list (string * Z)) (lang : string) :
  Forall (fun it => 1 <= snd it) languages ->
  Forall (fun it => 1 <= snd it) (count_language languages lang).
Proof.
  induction 1 as [|[l c] rest Hc Hrest IH]; simpl.
  - constructor; [simpl; lia | constructor].
  - destruct (String.eqb l lang); constructor; simpl in *; try lia; assumption.
Qed.

Lemma insert_item_Permutation (it : string * Z) (l : list (string * Z)) :
  Permutation (it :: l) (insert_item it l).
Proof.
  induction l as [|x l IH]; simpl; [apply Permutation_refl|].
  destruct (String.ltb (fst x) (fst it)).
  - apply (perm_trans (perm_swap x it l)). apply perm_skip. exact IH.
  - apply Permutation_refl.
Qed.

Lemma sorted_items_Permutation (items : list (string * Z)) :
  Permutation items (sorted_items items).
Proof.
  unfold sorted_items. induction items as [|x l IH]; simpl; [apply perm_nil|].
  apply (perm_trans (perm_skip x IH)). apply insert_item_Permutation.
Qed.

(** The facts kept while the files are counted. *)
Lemma language_counts_from (fs : list FileInfo) :
  forall languages : list (string * Z),
    let result :=
      fold_left (fun languages file_info => count_language languages (language file_info))
                fs languages in
    sum_counts result = sum_counts languages + Z.of_nat (List.length fs) /\
    (NoDup (map fst languages) -> NoDup (map fst result)) /\
    (Forall (fun it => 1 <= snd it) languages -> Forall (fun it => 1 <= snd it) result) /\
    (forall k, In k (map fst result) <->
               In k (map fst languages) \/ exists fi, In fi fs /\ language fi = k).
Proof.
  induction fs as [|fi fs IH]; intros languages; cbn [fold_left List.length].
  - split; [simpl; lia|]. split; [auto|]. split; [auto|].
    intros k. split; [intros H; left; exact H | intros [H|(fi & [] & _)]; exact H].
  - destruct (IH (count_language languages (language fi))) as (Hsum & Hnd & Hpos & Hkeys).
    split; [rewrite Hsum, count_language_sum; lia|].
    split; [intros H; apply Hnd; apply count_language_NoDup; exact H|].
    split; [intros H; apply Hpos; apply count_language_positive; exact H|].
    intros k. split.
    + intros H. apply Hkeys in H. rewrite count_language_keys in H.
      destruct H as [[->|H]|(fi' & Hin & Hl)].
      * right. exists fi. split; [left; reflexivity | reflexivity].
      * left. exact H.
      * right. exists fi'. split; [right; exact Hin | exact Hl].
    + intros H. apply Hkeys. rewrite count_language_keys.
      destruct H as [H|(fi' & [<-|Hin] & Hl)].
      * left. right. exact H.
      * left. left. symmetry. exact Hl.
      * right. exists fi'. split; assumption.
Qed.

(** X22: the languages line of the loaded message lists each language of
    the selected files once, with a count of at least 1, and the counts add
    up to the number of selected files; sorting the items for display keeps
    them all. *)
Theorem X22_language_counts_add_up (data : ScanResult) :
  lang_summary_of data =
    PyStr.join ", "
      (map (fun it => fst it ++ ": " ++ PyFormat.int (snd it))
           (sorted_items (language_counts data))) /\
  Permutation (language_counts data) (sorted_items (language_counts data)) /\
  sum_counts (language_counts data) = Z.of_nat (List.length (files data)) /\
  NoDup (map fst (language_counts data)) /\
  Forall (fun it => 1 <= snd it) (language_counts data) /\
  forall lang : string,
    In lang (map fst (language_counts data)) <->
    exists fi, In fi (files data) /\ language fi = lang.
Proof.
  destruct (language_counts_from (files data) []) as (Hsum & Hnd & Hpos & Hkeys).
  fold (language_counts data) in *.
  split; [reflexivity|]. split; [apply sorted_items_Permutation|].
  split; [rewrite Hsum; simpl; lia|].
  split; [apply Hnd; constructor|]. split; [apply Hpos; constructor|].
  intros lang. rewrite Hkeys. simpl. tauto.
Qed.

(** ** Contents in the document *)

Lemma concat_all_In {A : Type} (f : A -> string) (x : A) (l : list A) :
  In x l ->
  exists before after : string, concat_all (map f l) = before ++ f x ++ after.
Proof.
  induction l as [|a l IH]; intros Hin; [destruct Hin|].
  destruct Hin as [->|Hin].
  - exists "", (concat_all (map f l)). reflexivity.
  - destruct (IH Hin) as (before & after & Heq).
    exists (f a ++ before), after. cbn [map concat_all fold_right].
    fold (concat_all (map f l)). rewrite Heq, append_assoc. reflexivity.
Qed.

(** X23: the document holds every selected file in full, also the files
    beyond the 20 lines of the tree: for each of them it contains the heading
    with its relative path and language, followed by its whole content
    between the two fences. *)
Theorem X23_document_holds_every_content (codebase_data : ScanResult) (fi : FileInfo) :
  In fi (files codebase_data) ->
  exists before after : string,
    create_codebase_context codebase_data =
    before ++
    content_heading fi ++
    ("```" ++ language fi ++ nl ++ content fi ++ nl ++ "```" ++ nl ++ nl) ++
    after.
Proof.
  intros Hin. unfold create_codebase_context.
  rewrite fold_left_append2.
  destruct (concat_all_In (fun x => content_heading x ++ content_block x) fi
                          (files codebase_data) Hin) as (before & after & ->).
  match goal with
  | |- exists b a, (?X ++ _) ++ _ = _ =>
      exists (X ++ before), (after ++ analysis_instructions)
  end.
  unfold content_block. rewrite !append_assoc. reflexivity.
Qed.

Lemma X23_document_holds_every_content_witness :
  exists (fi : FileInfo) (before after : string),
    In fi (files (scan_codebase false (fun _ => None) "/proj" demo_tree 100)) /\
    content fi = "# Demo project" /\
    create_codebase_context (scan_codebase false (fun _ => None) "/proj" demo_tree 100) =
    before ++
    content_heading fi ++
    ("```" ++ language fi ++ nl ++ content fi ++ nl ++ "```" ++ nl ++ nl) ++
    after.
Proof.
  assert (Hin : exists fi,
             In fi (files (scan_codebase false (fun _ => None) "/proj" demo_tree 100)) /\
             content fi = "# Demo project").
  { eexists. split; [vm_compute; right; left; reflexivity | reflexivity]. }
  destruct Hin as (fi & Hin & Hcontent).
  destruct (X23_document_holds_every_content _ fi Hin) as (before & after & Heq).
  exists fi, before, after.
  split; [exact Hin|]. split; [exact Hcontent | exact Heq].
Defined.

(** ** The estimator and the size of a file *)

(** X24: without the exact tokenizer, the tokens of a selected file are its
    size divided by 4, rounded down; so no selected file is longer than
    200,003 characters, whatever the budget. *)
Theorem X24_estimator_bounds_the_size (enc : string -> option (list Z))
        (root : string) (tree : Node) (max_tokens : Z) (fi : FileInfo) :
  In fi (files (scan_codebase false enc root tree max_tokens)) ->
  tokens fi = size fi / 4 /\
  4 * tokens fi <= size fi /\
  size fi <= 200003.
Proof.
  intros Hin.
  destruct (selected_from_walk false enc root tree max_tokens fi Hin) as (e & _ & Hfi).
  apply scan_entry_Some in Hfi.
  destruct Hfi as (_ & _ & _ & _ & text & toks & mtime & _ & _ & Hc & Hle & _ & ->).
  unfold record_of, set_relevance_score. cbn [tokens size].
  unfold count_tokens in Hc. injection Hc as <-.
  pose proof (len_nonneg text).
  pose proof (Z.div_mod (PyStr.len text) 4 ltac:(lia)).
  pose proof (Z.mod_pos_bound (PyStr.len text) 4 ltac:(lia)).
  repeat split; lia.
Qed.

Lemma X24_estimator_bounds_the_size_witness :
  exists fi : FileInfo,
    In fi (files (scan_codebase false (fun _ => None) "/proj" demo_tree 100)) /\
    size fi = 20 /\
    tokens fi = size fi / 4 /\
    4 * tokens fi <= size fi /\
    size fi <= 200003.
Proof.
  eexists. split; [vm_compute; left; reflexivity|].
  split; [reflexivity|].
  apply (X24_estimator_bounds_the_size (fun _ => None) "/proj" demo_tree 100).
  vm_compute. left. reflexivity.
Defined.
